(** * pwcp.hooks: the import hooks of pwcp, embedded and verified

    A shallow embedding of [src/pwcp/hooks.py].  The module keeps three
    process-wide tables ([_path_importer_cache], [_path_hooks],
    [preprocessed_files]), two class attributes ([PPyLoader._config],
    [PPyPathFinder._config]) and the closure variable [done] of [_install];
    it also writes to [sys.meta_path], [sys.path_importer_cache] and
    [linecache.getlines].  All of these are fields of one [State] record that
    every operation threads explicitly; exceptions are results of type
    [Outcome].  Everything the module calls but does not define (the
    preprocessor, [os.getcwd], the resolvers found on [sys.meta_path], the
    native [linecache.getlines], ...) acts on an abstract host environment
    [Env]. *)

From Stdlib Require Import ZArith NArith List Bool Lia String Ascii.
From stdpp Require Import base option list gmap fin_maps.

Set Default Proof Using "Type".
Local Open Scope Z_scope.

(** ** Python values used by the module *)

Module Py.

(** A Python [str] is a sequence of code points, a [bytes] a sequence of
    octets. *)
Definition str := list N.
Definition bytes := list N.

(** A literal of the development, written as a Rocq string. *)
Definition lit (s : string) : str :=
  List.map N_of_ascii (list_ascii_of_string s).

(** Exceptions, by the class an [except] clause tests for.  [OtherError]
    stands for every class that is none of the named ones nor a subclass of
    one of them. *)
Inductive Exn :=
  | AttributeError
  | ImportError
  | FileNotFoundError
  | IndexError
  | TypeError
  | UnicodeEncodeError
  | OtherError (tag : nat).

Inductive Outcome (A : Type) :=
  | Returns (a : A)
  | Raises (e : Exn).
Arguments Returns {A} a.
Arguments Raises {A} e.

#[global] Instance Exn_eq_dec : EqDecision Exn.
Proof. solve_decision. Defined.

(** Truthiness of a [str]: the empty string is falsy. *)
Definition str_truthy (s : str) : bool :=
  match s with [] => false | _ :: _ => true end.

(** The line boundaries of [str.splitlines]. *)
Definition is_linebreak (c : N) : bool :=
  (c =? 10)%N || (c =? 11)%N || (c =? 12)%N || (c =? 13)%N
  || (c =? 28)%N || (c =? 29)%N || (c =? 30)%N || (c =? 133)%N
  || (c =? 8232)%N || (c =? 8233)%N.

(** [str.splitlines()] without [keepends]: [cur] is the line being read,
    last character first.  A CR LF pair is one boundary, and no empty line
    is produced after the last boundary. *)
Fixpoint splitlines_from (cur : str) (s : str) : list str :=
  match s with
  | [] => match cur with [] => [] | _ :: _ => [rev cur] end
  | c :: rest =>
      if (c =? 13)%N then
        match rest with
        | c' :: rest' =>
            if (c' =? 10)%N then rev cur :: splitlines_from [] rest'
            else rev cur :: splitlines_from [] rest
        | [] => rev cur :: splitlines_from [] rest
        end
      else if is_linebreak c then rev cur :: splitlines_from [] rest
      else splitlines_from (c :: cur) rest
  end.

Definition splitlines (s : str) : list str := splitlines_from [] s.

(** [l[i]] on a list: a negative index counts from the end, an index out of
    range raises [IndexError]. *)
Definition getitem {A} (l : list A) (i : Z) : Outcome A :=
  let n := Z.of_nat (length l) in
  let j := if i <? 0 then i + n else i in
  if (j <? 0) || (n <=? j) then Raises IndexError
  else match l !! Z.to_nat j with
       | Some x => Returns x
       | None => Raises IndexError
       end.

(** [str.encode()]: UTF-8, strict.  A surrogate code point cannot be
    encoded. *)
Definition encode_codepoint (c : N) : option bytes :=
  (if c <? 128 then Some [c]
   else if c <? 2048 then Some [192 + c / 64; 128 + c mod 64]
   else if (55296 <=? c) && (c <=? 57343) then None
   else if c <? 65536 then
     Some [224 + c / 4096; 128 + (c / 64) mod 64; 128 + c mod 64]
   else if c <? 1114112 then
     Some [240 + c / 262144; 128 + (c / 4096) mod 64;
           128 + (c / 64) mod 64; 128 + c mod 64]
   else None)%N.

Fixpoint encode_utf8 (s : str) : option bytes :=
  match s with
  | [] => Some []
  | c :: rest =>
      match encode_codepoint c, encode_utf8 rest with
      | Some b, Some bs => Some (b ++ bs)
      | _, _ => None
      end
  end.

Definition encode (s : str) : Outcome bytes :=
  match encode_utf8 s with
  | Some b => Returns b
  | None => Raises UnicodeEncodeError
  end.

(** The values a configuration dictionary holds, as far as this module
    looks at them: it only tests one of them for truth. *)
Inductive Value :=
  | VNone
  | VBool (b : bool)
  | VInt (z : Z)
  | VStr (s : str).

Definition truthy (v : Value) : bool :=
  match v with
  | VNone => false
  | VBool b => b
  | VInt z => negb (z =? 0)
  | VStr s => str_truthy s
  end.

(** A Python [dict] whose order matters to the code that walks it: keys in
    insertion order, no key twice. *)
Section Dict.
Context {K V : Type} `{EqDecision K}.

Definition dict := list (K * V).

Fixpoint dict_get (k : K) (d : dict) : option V :=
  match d with
  | [] => None
  | (k', v) :: rest => if decide (k = k') then Some v else dict_get k rest
  end.

(** [d[k] = v]: a key already present keeps its place. *)
Fixpoint dict_set (k : K) (v : V) (d : dict) : dict :=
  match d with
  | [] => [(k, v)]
  | (k', v') :: rest =>
      if decide (k = k') then (k, v) :: rest
      else (k', v') :: dict_set k v rest
  end.

Definition dict_values (d : dict) : list V := List.map snd d.
End Dict.
Arguments dict : clear implicits.

End Py.
Import Py.

(** ** Objects of the import system *)

(** Objects the module only passes around are known by an identity. *)
Definition ObjId := nat.
Bind Scope nat_scope with ObjId.

(** A configuration: the [dict] handed to [install]. *)
Abbreviation Config := (gmap str Value).

(** [PPyLoader] instances: [__init__] stores its two arguments. *)
Record PPyLoader := { fullname : str; path : str }.

Inductive LoaderObj :=
  | PPyLoaderObj (self : PPyLoader)
  | HostLoader (id : ObjId).

(** A module spec, as far as the resolvers look at it. *)
Record ModuleSpec := {
  spec_name : str;
  spec_loader : option LoaderObj;
  spec_origin : option str }.

(** The [path] argument of [find_spec] ([None] or a list of entries), its
    [target] argument and the [module_globals] of [getlines]. *)
Definition SearchPath := option (list str).
Definition Target := option ObjId.
Definition ModuleGlobals := option ObjId.

(** The frames of a traceback in [tb_next] order; [None] is the empty
    list. *)
Record Frame := { co_filename : str; co_name : str; tb_lineno : Z }.
Definition Traceback := list Frame.

(** The exception object given to the handler: an instance of
    [SyntaxError] (or of a subclass) with the attributes the handler reads,
    or an instance of any other class. *)
Inductive ExcObj :=
  | SyntaxErrorObj (filename : option str) (lineno : option Z)
      (text : option str) (msg : str)
  | OtherExcObj (cls : str) (msg : str).

(** The entry module: its [__file__] attribute may be missing, [None] or a
    path. *)
Inductive FileAttr :=
  | NoFileAttr
  | FileAttrIs (v : option str).
Record ModuleType := { __name__ : str; __file__ : FileAttr }.

(** One call of [print_exception]. *)
Record Printed := {
  printed_type : str;
  printed_exc : ExcObj;
  printed_tb : Traceback }.

(** The function bound to [linecache.getlines]. *)
Inductive GetlinesImpl := NativeGetlines | PatchedGetlines.

Section Objects.
Context {Env : Type}.

(** A call into the host: it may raise and may change the host. *)
Definition Ext (A : Type) : Type := Env -> Outcome A * Env.

(** A resolver on [sys.meta_path] other than [PPyPathFinder]; [None] for a
    method the object does not have. *)
Record MetaFinder := {
  mf_find_spec : option (str -> SearchPath -> Target -> Ext (option ModuleSpec));
  mf_find_module : option (str -> SearchPath -> Ext (option LoaderObj));
  mf_invalidate_caches : option (Ext unit) }.

Inductive Finder :=
  | PPyPathFinderCls
  | HostFinder (f : MetaFinder).

(** A directory resolver, as a path hook returns it. *)
Record DirFinder := {
  df_id : ObjId;
  df_invalidate_caches : option (Ext unit) }.

Definition PathHook : Type := str -> Ext (option DirFinder).

Record State := {
  (* host tables the module writes to *)
  sys_meta_path : list Finder;
  sys_path_importer_cache : dict str (option DirFinder);
  linecache_getlines : GetlinesImpl;
  (* module globals *)
  _path_importer_cache : dict str (option DirFinder);
  _path_hooks : list PathHook;
  preprocessed_files : gmap str str;
  (* class attributes *)
  PPyPathFinder_config : Config;
  PPyLoader_config : Config;
  (* closure variable of _install *)
  done : bool;
  (* what print_exception has written *)
  stderr : list Printed;
  (* everything else *)
  env : Env }.

Definition M (A : Type) : Type := State -> Outcome A * State.

Definition ret {A} (a : A) : M A := fun w => (Returns a, w).
Definition raise {A} (e : Exn) : M A := fun w => (Raises e, w).
Definition bind {A B} (m : M A) (k : A -> M B) : M B :=
  fun w => match m w with
           | (Returns a, w') => k a w'
           | (Raises e, w') => (Raises e, w')
           end.
Definition gets {A} (f : State -> A) : M A := fun w => (Returns (f w), w).
Definition modify (f : State -> State) : M unit := fun w => (Returns tt, f w).
Definition of_outcome {A} (o : Outcome A) : M A := fun w => (o, w).

(** [try: body / except E: handler], [catches] telling the classes [E]
    covers. *)
Definition try_except {A} (body : M A) (catches : Exn -> bool)
    (handler : M A) : M A :=
  fun w => match body w with
           | (Returns a, w') => (Returns a, w')
           | (Raises e, w') =>
               if catches e then handler w' else (Raises e, w')
           end.

Definition set_env (e : Env) (w : State) : State :=
  {| sys_meta_path := sys_meta_path w;
     sys_path_importer_cache := sys_path_importer_cache w;
     linecache_getlines := linecache_getlines w;
     _path_importer_cache := _path_importer_cache w;
     _path_hooks := _path_hooks w;
     preprocessed_files := preprocessed_files w;
     PPyPathFinder_config := PPyPathFinder_config w;
     PPyLoader_config := PPyLoader_config w;
     done := done w;
     stderr := stderr w;
     env := e |}.

(** A host call, run on the host part of the state. *)
Definition lift {A} (c : Ext A) : M A :=
  fun w => let (r, e) := c (env w) in (r, set_env e w).

Definition set_sys_meta_path (v : list Finder) (w : State) : State :=
  {| sys_meta_path := v;
     sys_path_importer_cache := sys_path_importer_cache w;
     linecache_getlines := linecache_getlines w;
     _path_importer_cache := _path_importer_cache w;
     _path_hooks := _path_hooks w;
     preprocessed_files := preprocessed_files w;
     PPyPathFinder_config := PPyPathFinder_config w;
     PPyLoader_config := PPyLoader_config w;
     done := done w;
     stderr := stderr w;
     env := env w |}.

Definition set_sys_path_importer_cache (v : dict str (option DirFinder))
    (w : State) : State :=
  {| sys_meta_path := sys_meta_path w;
     sys_path_importer_cache := v;
     linecache_getlines := linecache_getlines w;
     _path_importer_cache := _path_importer_cache w;
     _path_hooks := _path_hooks w;
     preprocessed_files := preprocessed_files w;
     PPyPathFinder_config := PPyPathFinder_config w;
     PPyLoader_config := PPyLoader_config w;
     done := done w;
     stderr := stderr w;
     env := env w |}.

Definition set_linecache_getlines (v : GetlinesImpl) (w : State) : State :=
  {| sys_meta_path := sys_meta_path w;
     sys_path_importer_cache := sys_path_importer_cache w;
     linecache_getlines := v;
     _path_importer_cache := _path_importer_cache w;
     _path_hooks := _path_hooks w;
     preprocessed_files := preprocessed_files w;
     PPyPathFinder_config := PPyPathFinder_config w;
     PPyLoader_config := PPyLoader_config w;
     done := done w;
     stderr := stderr w;
     env := env w |}.

Definition set_path_importer_cache (v : dict str (option DirFinder))
    (w : State) : State :=
  {| sys_meta_path := sys_meta_path w;
     sys_path_importer_cache := sys_path_importer_cache w;
     linecache_getlines := linecache_getlines w;
     _path_importer_cache := v;
     _path_hooks := _path_hooks w;
     preprocessed_files := preprocessed_files w;
     PPyPathFinder_config := PPyPathFinder_config w;
     PPyLoader_config := PPyLoader_config w;
     done := done w;
     stderr := stderr w;
     env := env w |}.

Definition set_path_hooks (v : list PathHook) (w : State) : State :=
  {| sys_meta_path := sys_meta_path w;
     sys_path_importer_cache := sys_path_importer_cache w;
     linecache_getlines := linecache_getlines w;
     _path_importer_cache := _path_importer_cache w;
     _path_hooks := v;
     preprocessed_files := preprocessed_files w;
     PPyPathFinder_config := PPyPathFinder_config w;
     PPyLoader_config := PPyLoader_config w;
     done := done w;
     stderr := stderr w;
     env := env w |}.

Definition set_preprocessed_files (v : gmap str str) (w : State) : State :=
  {| sys_meta_path := sys_meta_path w;
     sys_path_importer_cache := sys_path_importer_cache w;
     linecache_getlines := linecache_getlines w;
     _path_importer_cache := _path_importer_cache w;
     _path_hooks := _path_hooks w;
     preprocessed_files := v;
     PPyPathFinder_config := PPyPathFinder_config w;
     PPyLoader_config := PPyLoader_config w;
     done := done w;
     stderr := stderr w;
     env := env w |}.

Definition set_PPyPathFinder_config (v : Config) (w : State) : State :=
  {| sys_meta_path := sys_meta_path w;
     sys_path_importer_cache := sys_path_importer_cache w;
     linecache_getlines := linecache_getlines w;
     _path_importer_cache := _path_importer_cache w;
     _path_hooks := _path_hooks w;
     preprocessed_files := preprocessed_files w;
     PPyPathFinder_config := v;
     PPyLoader_config := PPyLoader_config w;
     done := done w;
     stderr := stderr w;
     env := env w |}.

Definition set_PPyLoader_config (v : Config) (w : State) : State :=
  {| sys_meta_path := sys_meta_path w;
     sys_path_importer_cache := sys_path_importer_cache w;
     linecache_getlines := linecache_getlines w;
     _path_importer_cache := _path_importer_cache w;
     _path_hooks := _path_hooks w;
     preprocessed_files := preprocessed_files w;
     PPyPathFinder_config := PPyPathFinder_config w;
     PPyLoader_config := v;
     done := done w;
     stderr := stderr w;
     env := env w |}.

Definition set_done (v : bool) (w : State) : State :=
  {| sys_meta_path := sys_meta_path w;
     sys_path_importer_cache := sys_path_importer_cache w;
     linecache_getlines := linecache_getlines w;
     _path_importer_cache := _path_importer_cache w;
     _path_hooks := _path_hooks w;
     preprocessed_files := preprocessed_files w;
     PPyPathFinder_config := PPyPathFinder_config w;
     PPyLoader_config := PPyLoader_config w;
     done := v;
     stderr := stderr w;
     env := env w |}.

Definition set_stderr (v : list Printed) (w : State) : State :=
  {| sys_meta_path := sys_meta_path w;
     sys_path_importer_cache := sys_path_importer_cache w;
     linecache_getlines := linecache_getlines w;
     _path_importer_cache := _path_importer_cache w;
     _path_hooks := _path_hooks w;
     preprocessed_files := preprocessed_files w;
     PPyPathFinder_config := PPyPathFinder_config w;
     PPyLoader_config := PPyLoader_config w;
     done := done w;
     stderr := v;
     env := env w |}.
End Objects.

Arguments MetaFinder : clear implicits.
Arguments Finder : clear implicits.
Arguments DirFinder : clear implicits.
Arguments PathHook : clear implicits.
Arguments State : clear implicits.
Arguments Ext : clear implicits.
Arguments M : clear implicits.

Declare Scope py_scope.
Delimit Scope py_scope with py.
Notation "x <- m ;; k" := (bind m (fun x => k))
  (at level 100, m at next level, right associativity) : py_scope.
Notation "m ;; k" := (bind m (fun _ => k))
  (at level 100, right associativity) : py_scope.
Open Scope py_scope.

(** What the module imports: the functions of the host and of the rest of
    the package that [hooks.py] calls. *)
Class Host (Env : Type) := {
  (** [os.getcwd] *)
  getcwd : Ext Env str;
  (** [pwcp.preprocessor.preprocess], called with a path and a
      configuration *)
  preprocess : str -> Config -> Ext Env str;
  (** [linecache.getlines] as imported when the module is loaded: the
      native one *)
  getlines : str -> ModuleGlobals -> Ext Env (list str);
  (** [importlib.util.spec_from_loader] *)
  spec_from_loader : str -> LoaderObj -> Ext Env (option ModuleSpec);
  (** [FileFinder.path_hook(LOADER_DETAILS)]: the hook for directories
      holding files with [FILE_EXTENSION], loaded by [PPyLoader] *)
  FileFinder_path_hook : PathHook Env;
  (** [PathFinder.find_spec], reached through [super()] with
      [PPyPathFinder] as [cls] *)
  PathFinder_find_spec :
    str -> SearchPath -> Target -> M Env (option ModuleSpec) }.

(** ** The module's functions *)

Section TopLevel.
Context {Env : Type} {host : Host Env}.

(** [patched_getlines(filename, module_globals=None)] *)
Definition patched_getlines (filename : str) (module_globals : ModuleGlobals)
    : M Env (list str) :=
  files <- gets preprocessed_files ;;
  match files !! filename with
  | Some text => ret (splitlines text)
  | None => lift (getlines filename module_globals)
  end.

Definition is_AttributeError (e : Exn) : bool :=
  bool_decide (e = AttributeError).
Definition is_ImportError (e : Exn) : bool :=
  bool_decide (e = ImportError).
Definition is_FileNotFoundError (e : Exn) : bool :=
  bool_decide (e = FileNotFoundError).

(** [finder.find_spec(fullname, path, target)]; looking up a method the
    object lacks raises [AttributeError]. *)
Definition call_find_spec (finder : MetaFinder Env) (fullname : str)
    (path : SearchPath) (target : Target) : M Env (option ModuleSpec) :=
  match mf_find_spec finder with
  | Some f => lift (f fullname path target)
  | None => raise AttributeError
  end.

(** [finder.find_module(fullname, path)] *)
Definition call_find_module (finder : MetaFinder Env) (fullname : str)
    (path : SearchPath) : M Env (option LoaderObj) :=
  match mf_find_module finder with
  | Some f => lift (f fullname path)
  | None => raise AttributeError
  end.

(** [spec and spec.loader], also [spec is not None and spec.loader is not
    None]: a spec and a loader object are truthy, [None] is not. *)
Definition has_loader (spec : option ModuleSpec) : bool :=
  match spec with
  | Some s => match spec_loader s with Some _ => true | None => false end
  | None => false
  end.

(** The [try] statement of the loop body of [find_spec_fallback]; the
    result is the new value of the variable [spec], whose old value stays
    when the legacy interface finds no loader. *)
Definition query_finder (finder : MetaFinder Env) (spec : option ModuleSpec)
    (fullname : str) (path : SearchPath) (target : Target)
    : M Env (option ModuleSpec) :=
  try_except (call_find_spec finder fullname path target) is_AttributeError
    (loader <- call_find_module finder fullname path ;;
     match loader with
     | Some l => lift (spec_from_loader fullname l)
     | None => ret spec
     end).

(** The [for] loop of [find_spec_fallback] over the remaining resolvers. *)
Fixpoint find_spec_fallback_from (finders : list (Finder Env))
    (spec : option ModuleSpec) (fullname : str) (path : SearchPath)
    (target : Target) : M Env (option ModuleSpec) :=
  match finders with
  | [] => ret None
  | PPyPathFinderCls :: rest =>
      find_spec_fallback_from rest spec fullname path target
  | HostFinder finder :: rest =>
      spec' <- query_finder finder spec fullname path target ;;
      if has_loader spec' then ret spec'
      else find_spec_fallback_from rest spec' fullname path target
  end.

(** [find_spec_fallback(fullname, path, target)] *)
Definition find_spec_fallback (fullname : str) (path : SearchPath)
    (target : Target) : M Env (option ModuleSpec) :=
  finders <- gets sys_meta_path ;;
  find_spec_fallback_from finders None fullname path target.

(** [traceback.print_exception(e_type, e, tb)], recorded as one entry of
    [stderr]. *)
Definition print_exception (e_type : str) (e : ExcObj) (tb : Traceback)
    : M Env unit :=
  modify (fun w =>
    set_stderr (stderr w ++ [{| printed_type := e_type;
                                printed_exc := e;
                                printed_tb := tb |}]) w).
End TopLevel.

Module PPyPathFinder.
Section Methods.
Context {Env : Type} {host : Host Env}.

(** [Configurable.set_config] with [cls = PPyPathFinder] *)
Definition set_config (config : Config) : M Env unit :=
  modify (set_PPyPathFinder_config config).

Definition invalidate_one (finder : option (DirFinder Env)) : M Env unit :=
  match finder with
  | Some f =>
      match df_invalidate_caches f with
      | Some inv => lift inv
      | None => ret tt
      end
  | None => ret tt
  end.

Fixpoint invalidate_each (finders : list (option (DirFinder Env)))
    : M Env unit :=
  match finders with
  | [] => ret tt
  | finder :: rest => invalidate_one finder ;; invalidate_each rest
  end.

(** [PPyPathFinder.invalidate_caches()] *)
Definition invalidate_caches : M Env unit :=
  cache <- gets _path_importer_cache ;;
  invalidate_each (dict_values cache).

Fixpoint path_hooks_from (hooks : list (PathHook Env)) (path : str)
    : M Env (option (DirFinder Env)) :=
  match hooks with
  | [] => ret None
  | hook :: rest =>
      try_except (lift (hook path)) is_ImportError
        (path_hooks_from rest path)
  end.

(** [PPyPathFinder._path_hooks(path)] *)
Definition _path_hooks (path : str) : M Env (option (DirFinder Env)) :=
  hooks <- gets _path_hooks ;;
  path_hooks_from hooks path.

(** The second [try] statement of [_path_importer_cache] and its
    [return]. *)
Definition cached_or_hooked (path : str) : M Env (option (DirFinder Env)) :=
  cache <- gets _path_importer_cache ;;
  match dict_get path cache with
  | Some finder => ret finder
  | None =>
      finder <- _path_hooks path ;;
      modify (fun w =>
        set_path_importer_cache
          (dict_set path finder (_path_importer_cache w)) w) ;;
      ret finder
  end.

(** [PPyPathFinder._path_importer_cache(path)] *)
Definition _path_importer_cache (path : str)
    : M Env (option (DirFinder Env)) :=
  match path with
  | [] =>
      fun w =>
        match lift getcwd w with
        | (Returns cwd, w') => cached_or_hooked cwd w'
        | (Raises e, w') =>
            if is_FileNotFoundError e then (Returns None, w')
            else (Raises e, w')
        end
  | _ :: _ => cached_or_hooked path
  end.

Definition prefer_python (config : Config) : bool :=
  match config !! lit "prefer_python" with
  | Some v => truthy v
  | None => false
  end.

(** [PPyPathFinder.find_spec(fullname, path, target=None)] *)
Definition find_spec (fullname : str) (path : SearchPath) (target : Target)
    : M Env (option ModuleSpec) :=
  config <- gets PPyPathFinder_config ;;
  early <- (if prefer_python config
            then find_spec_fallback fullname path target
            else ret None) ;;
  match early with
  | Some spec => ret (Some spec)
  | None =>
      spec <- PathFinder_find_spec fullname path target ;;
      if has_loader spec then ret spec else ret None
  end.
End Methods.
End PPyPathFinder.

Module PPyLoader.
Section Methods.
Context {Env : Type} {host : Host Env}.

(** [Configurable.set_config] with [cls = PPyLoader] *)
Definition set_config (config : Config) : M Env unit :=
  modify (set_PPyLoader_config config).

(** [PPyLoader.get_filename(self, fullname)] *)
Definition get_filename (self : PPyLoader) (fullname : str) : str :=
  path self.

(** [PPyLoader.get_data(self, filename)]: the argument [filename] is not
    read, the loader's own [path] is. *)
Definition get_data (self : PPyLoader) (filename : str) : M Env bytes :=
  config <- gets PPyLoader_config ;;
  data <- lift (preprocess (path self) config) ;;
  modify (fun w =>
    set_preprocessed_files (<[path self := data]> (preprocessed_files w)) w) ;;
  of_outcome (encode data).
End Methods.
End PPyLoader.

Section Handler.
Context {Env : Type} {host : Host Env}.

(** The [if] statement of [handle_exc]: the exception with its [text]
    replaced, or the exception the replacement raises. *)
Definition replace_text (files : gmap str str) (e : ExcObj)
    : Outcome ExcObj :=
  match e with
  | SyntaxErrorObj filename lineno text msg =>
      match filename ≫= (fun f => files !! f) with
      | Some data =>
          if str_truthy data then
            match lineno with
            | Some n =>
                match getitem (splitlines data) (n - 1) with
                | Returns line =>
                    Returns (SyntaxErrorObj filename lineno (Some line) msg)
                | Raises x => Raises x
                end
            | None => Raises TypeError
            end
          else Returns e
      | None => Returns e
      end
  | OtherExcObj _ _ => Returns e
  end.

(** The [while] loop of [handle_exc]. *)
Fixpoint remove_outer_frames (module : option ModuleType) (tb : Traceback)
    : Outcome Traceback :=
  match tb with
  | [] => Returns []
  | frame :: rest =>
      match module with
      | None => Returns tb
      | Some m =>
          match __file__ m with
          | NoFileAttr => Raises AttributeError
          | FileAttrIs file =>
              if bool_decide (Some (co_filename frame) ≠ file)
              then remove_outer_frames module rest
              else Returns tb
          end
      end
  end.

(** [create_exception_handler(module)(e_type, e, tb)] *)
Definition handle_exc (module : option ModuleType) (e_type : str)
    (e : ExcObj) (tb : Traceback) : M Env unit :=
  files <- gets preprocessed_files ;;
  e' <- of_outcome (replace_text files e) ;;
  tb' <- of_outcome (remove_outer_frames module tb) ;;
  print_exception e_type e' tb'.

Definition create_exception_handler (module : option ModuleType)
    : str -> ExcObj -> Traceback -> M Env unit :=
  handle_exc module.
End Handler.

Section Install.
Context {Env : Type} {host : Host Env}.

Definition invalidate_finder (finder : Finder Env) : M Env unit :=
  match finder with
  | PPyPathFinderCls => PPyPathFinder.invalidate_caches
  | HostFinder f =>
      match mf_invalidate_caches f with
      | Some inv => lift inv
      | None => ret tt
      end
  end.

Fixpoint invalidate_finders (finders : list (Finder Env)) : M Env unit :=
  match finders with
  | [] => ret tt
  | finder :: rest => invalidate_finder finder ;; invalidate_finders rest
  end.

(** [importlib.invalidate_caches()]: every resolver of [sys.meta_path]
    that has the method is asked to invalidate. *)
Definition importlib_invalidate_caches : M Env unit :=
  finders <- gets sys_meta_path ;;
  invalidate_finders finders.

(** [install(config)], the closure returned by [_install()]; its variable
    [done] is the field of that name. *)
Definition install (config : Config) : M Env unit :=
  PPyLoader.set_config config ;;
  PPyPathFinder.set_config config ;;
  d <- gets done ;;
  if d then ret tt
  else
    modify (fun w => set_sys_meta_path (PPyPathFinderCls :: sys_meta_path w) w) ;;
    modify (fun w => set_path_hooks (_path_hooks w ++ [FileFinder_path_hook]) w) ;;
    modify (set_sys_path_importer_cache []) ;;
    importlib_invalidate_caches ;;
    modify (set_linecache_getlines PatchedGetlines) ;;
    modify (set_done true).

Definition is_PPyPathFinder (finder : Finder Env) : bool :=
  match finder with PPyPathFinderCls => true | HostFinder _ => false end.

(** How many times [PPyPathFinder] stands on a resolver chain. *)
Definition count_PPyPathFinder (finders : list (Finder Env)) : nat :=
  length (List.filter is_PPyPathFinder finders).

(** The state when the module has been imported and nothing else has
    run; the host's tables and the host itself are as they are found. *)
Definition initial_state (meta_path : list (Finder Env))
    (importer_cache : dict str (option (DirFinder Env))) (e : Env)
    : State Env :=
  {| sys_meta_path := meta_path;
     sys_path_importer_cache := importer_cache;
     linecache_getlines := NativeGetlines;
     _path_importer_cache := [];
     _path_hooks := [];
     preprocessed_files := ∅;
     PPyPathFinder_config := ∅;
     PPyLoader_config := ∅;
     done := false;
     stderr := [];
     env := e |}.

(** [linecache.getlines(filename, module_globals)] as the rest of the
    process calls it: through the module attribute. *)
Definition linecache_getlines_call (filename : str)
    (module_globals : ModuleGlobals) : M Env (list str) :=
  impl <- gets linecache_getlines ;;
  match impl with
  | NativeGetlines => lift (getlines filename module_globals)
  | PatchedGetlines => patched_getlines filename module_globals
  end.

(** A sequence of calls, each of which has to return. *)
Fixpoint install_all (configs : list Config) : M Env unit :=
  match configs with
  | [] => ret tt
  | config :: rest => install config ;; install_all rest
  end.

(** What happens during the life of the process, as far as the tables of
    this module are concerned: calls of its functions, and steps of the
    host (files written, the working directory changed, ...).  A lookup by
    [PathFinder.find_spec] is a [CallPathImporterCache]. *)
Inductive Call :=
  | CallInstall (config : Config)
  | CallInvalidateCaches
  | CallPathImporterCache (path : str)
  | CallGetData (self : PPyLoader) (filename : str)
  | CallGetlines (filename : str) (module_globals : ModuleGlobals)
  | CallHandleExc (module : option ModuleType) (e_type : str) (e : ExcObj)
      (tb : Traceback)
  | HostStep (f : Env -> Env).

(** The state after a call; an exception is caught by the caller and the
    process goes on. *)
Definition after_call (c : Call) (w : State Env) : State Env :=
  match c with
  | CallInstall config => snd (install config w)
  | CallInvalidateCaches => snd (PPyPathFinder.invalidate_caches w)
  | CallPathImporterCache p => snd (PPyPathFinder._path_importer_cache p w)
  | CallGetData self filename => snd (PPyLoader.get_data self filename w)
  | CallGetlines filename mg => snd (linecache_getlines_call filename mg w)
  | CallHandleExc module e_type e tb => snd (handle_exc module e_type e tb w)
  | HostStep f => set_env (f (env w)) w
  end.

Definition after_calls (cs : list Call) (w : State Env) : State Env :=
  fold_left (fun w c => after_call c w) cs w.
End Install.

Arguments Call : clear implicits.

(** ** The preprocessor, seen from the loader *)

Section Preprocessor.
Context {Env : Type}.

(** Modelled from the spec: the body of [pwcp.preprocessor.preprocess] is
    not in [hooks.py], which hands it a path and a configuration.  The spec
    describes the load as reading the raw content of the file and giving it,
    with the active configuration, to a preprocessor that is a pure function
    from text and configuration to text.  [read_text] is the raw content of
    a file on the host (or the exception reading it raises), [transform]
    the pure rewrite, which may reject its input. *)
Definition preprocess_from_source
    (read_text : str -> Env -> Outcome str)
    (transform : str -> Config -> Outcome str)
    : str -> Config -> Ext Env str :=
  fun p config e =>
    (match read_text p e with
     | Returns raw => transform raw config
     | Raises x => Raises x
     end, e).
End Preprocessor.

(** ** A small host to run the functions on *)

Module Demo.

(** Files with their content, the directories, the working directory
    ([None] once it has been removed), the directory resolvers that have
    been told to invalidate and the resolvers that have been asked for a
    module. *)
Record DemoEnv := {
  disk : list (str * str);
  dirs : list str;
  cwd : option str;
  invalidated : list ObjId;
  asked : list ObjId }.

Definition read_text (p : str) (e : DemoEnv) : Outcome str :=
  match dict_get p (disk e) with
  | Some raw => Returns raw
  | None => Raises FileNotFoundError
  end.

(** A rewrite that rejects text starting with an exclamation mark and puts
    a line in front of any other. *)
Definition transform (raw : str) (config : Config) : Outcome str :=
  match raw with
  | 33%N :: _ => Raises (OtherError 1)
  | _ => Returns (lit "pass" ++ [10%N] ++ raw)
  end.

Definition note_invalidated (id : ObjId) : Ext DemoEnv unit :=
  fun e => (Returns tt,
            {| disk := disk e; dirs := dirs e; cwd := cwd e;
               invalidated := invalidated e ++ [id];
               asked := asked e |}).

Definition note_asked (id : ObjId) (e : DemoEnv) : DemoEnv :=
  {| disk := disk e; dirs := dirs e; cwd := cwd e;
     invalidated := invalidated e;
     asked := asked e ++ [id] |}.

(** The resolver of a directory is known by the length of its path. *)
Definition file_finder (p : str) : DirFinder DemoEnv :=
  {| df_id := length p;
     df_invalidate_caches := Some (note_invalidated (length p)) |}.

Definition path_hook : PathHook DemoEnv :=
  fun p e =>
    if bool_decide (p ∈ dirs e) then (Returns (Some (file_finder p)), e)
    else (Raises ImportError, e).

#[global] Instance demo_host : Host DemoEnv := {|
  getcwd := fun e =>
    match cwd e with
    | Some d => (Returns d, e)
    | None => (Raises FileNotFoundError, e)
    end;
  preprocess := preprocess_from_source read_text transform;
  getlines := fun filename _ e =>
    match dict_get filename (disk e) with
    | Some raw => (Returns (splitlines raw), e)
    | None => (Returns [], e)
    end;
  spec_from_loader := fun name loader e =>
    (Returns (Some {| spec_name := name;
                      spec_loader := Some loader;
                      spec_origin := None |}), e);
  FileFinder_path_hook := path_hook;
  PathFinder_find_spec := fun _ _ _ => ret None |}.

Definition a_ppy : str := lit "/src/a.ppy".
Definition b_ppy : str := lit "/src/b.ppy".
Definition src_dir : str := lit "/src".

Definition demo_env : DemoEnv :=
  {| disk := [(a_ppy, lit "x = 1"); (b_ppy, lit "!bad")];
     dirs := [src_dir];
     cwd := Some src_dir;
     invalidated := [];
     asked := [] |}.

(** The same host after [a.ppy] has been rewritten on disk. *)
Definition edit_a (e : DemoEnv) : DemoEnv :=
  {| disk := dict_set a_ppy (lit "y = 2") (disk e);
     dirs := dirs e; cwd := cwd e; invalidated := invalidated e;
     asked := asked e |}.

(** The same host after the working directory has been removed. *)
Definition remove_cwd (e : DemoEnv) : DemoEnv :=
  {| disk := disk e; dirs := dirs e; cwd := None;
     invalidated := invalidated e; asked := asked e |}.

Definition start : State DemoEnv := initial_state [] [] demo_env.

Definition loader_a : PPyLoader := {| fullname := lit "a"; path := a_ppy |}.
Definition loader_b : PPyLoader := {| fullname := lit "b"; path := b_ppy |}.

(** Three resolvers of the host: one with the modern interface that knows
    no module, one with only the legacy interface that knows every module,
    and one with the modern interface that knows every module. *)
Definition modern_none : MetaFinder DemoEnv :=
  {| mf_find_spec := Some (fun _ _ _ e => (Returns None, note_asked 1%nat e));
     mf_find_module := None;
     mf_invalidate_caches := None |}.

Definition legacy_only : MetaFinder DemoEnv :=
  {| mf_find_spec := None;
     mf_find_module :=
       Some (fun _ _ e => (Returns (Some (HostLoader 7%nat)), note_asked 2%nat e));
     mf_invalidate_caches := None |}.

Definition modern_all : MetaFinder DemoEnv :=
  {| mf_find_spec :=
       Some (fun name _ _ e =>
               (Returns (Some {| spec_name := name;
                                 spec_loader := Some (HostLoader 9%nat);
                                 spec_origin := None |}),
                note_asked 3%nat e));
     mf_find_module := None;
     mf_invalidate_caches := None |}.

Definition chain : list (Finder DemoEnv) :=
  [HostFinder modern_none; HostFinder legacy_only; HostFinder modern_all].

Definition prefer : Config := {[ lit "prefer_python" := VBool true ]}.

(** The process after [install] with [prefer_python] set, on a host with
    the three resolvers. *)
Definition preferring : State DemoEnv :=
  snd (install prefer (initial_state chain [] demo_env)).

(** An entry module, frames of it and frames of the import machinery. *)
Definition main_py : str := lit "/src/main.py".
Definition main : ModuleType :=
  {| __name__ := lit "__main__"; __file__ := FileAttrIs (Some main_py) |}.
Definition entry_frame (line : Z) : Frame :=
  {| co_filename := main_py; co_name := lit "<module>"; tb_lineno := line |}.
Definition internal_frame (line : Z) : Frame :=
  {| co_filename := lit "<frozen importlib._bootstrap>";
     co_name := lit "_load"; tb_lineno := line |}.

(** The process after [a.ppy] has been loaded. *)
Definition loaded : State DemoEnv :=
  snd (PPyLoader.get_data loader_a a_ppy start).
End Demo.

(** ** Reading a history of calls *)

Section History.
Context {Env : Type} {host : Host Env}.

(** The call loads path [p]: it is [get_data] on a loader bound to [p]. *)
Definition loads (p : str) (c : Call Env) : bool :=
  match c with
  | CallGetData self _ => bool_decide (path self = p)
  | _ => false
  end.

(** The call asks for the source lines of [p]. *)
Definition requests_text (p : str) (c : Call Env) : bool :=
  match c with
  | CallGetlines filename _ => bool_decide (filename = p)
  | _ => false
  end.

(** The preprocessor returns (rather than raises) for [p] in state [w]. *)
Definition preprocess_returns (p : str) (w : State Env) : bool :=
  match fst (preprocess p (PPyLoader_config w) (env w)) with
  | Returns _ => true
  | Raises _ => false
  end.

(** Among the calls [cs], made one after the other from state [w], one
    loads [p] with the preprocessor returning. *)
Fixpoint loaded_with_result (p : str) (cs : list (Call Env)) (w : State Env)
    : bool :=
  match cs with
  | [] => false
  | c :: rest =>
      (loads p c && preprocess_returns p w)
      || loaded_with_result p rest (after_call c w)
  end.
End History.

(** ** Calls into the host, one after the other *)

Section HostCalls.
Context {Env : Type}.

(** The calls are made in order; the first exception ends them. *)
Fixpoint call_each (calls : list (Ext Env unit)) : Ext Env unit :=
  match calls with
  | [] => fun e => (Returns tt, e)
  | c :: rest =>
      fun e =>
        match c e with
        | (Returns _, e') => call_each rest e'
        | (Raises x, e') => (Raises x, e')
        end
  end.

(** The [invalidate_caches] methods of the resolvers a cache holds, in the
    order of the cache; an entry [None] and a resolver without the method
    contribute nothing. *)
Definition invalidations (cache : dict str (option (DirFinder Env)))
    : list (Ext Env unit) :=
  omap (fun finder => finder ≫= df_invalidate_caches) (dict_values cache).

(** Every hook of the list declines [p] (raises [ImportError]) when the
    hooks are tried in order on host [e]; the result is the host after the
    last of them. *)
Fixpoint all_decline (hooks : list (PathHook Env)) (p : str) (e : Env)
    : option Env :=
  match hooks with
  | [] => Some e
  | hook :: rest =>
      match hook p e with
      | (Raises ImportError, e') => all_decline rest p e'
      | _ => None
      end
  end.
End HostCalls.

(** ** The fallback chain, as the specification words it *)

Section FallbackChain.
Context {Env : Type} {host : Host Env}.

(** The globally registered resolvers other than [PPyPathFinder] itself,
    in their order. *)
Definition others (chain : list (Finder Env)) : list (MetaFinder Env) :=
  omap (fun finder =>
          match finder with
          | HostFinder f => Some f
          | PPyPathFinderCls => None
          end) chain.

(** The legacy interface of one resolver: [find_module], its loader
    adapted into a spec.  Nothing is caught here. *)
Definition legacy_answer (finder : MetaFinder Env) (fullname : str)
    (path : SearchPath) : M Env (option ModuleSpec) :=
  fun w =>
    match mf_find_module finder with
    | None => (Raises AttributeError, w)
    | Some g =>
        match g fullname path (env w) with
        | (Returns (Some loader), e) =>
            lift (spec_from_loader fullname loader) (set_env e w)
        | (Returns None, e) => (Returns None, set_env e w)
        | (Raises x, e) => (Raises x, set_env e w)
        end
    end.

(** What one resolver answers: the modern interface [find_spec] is used;
    when it is absent (or raises [AttributeError]) the legacy interface is;
    every other exception goes to the caller. *)
Definition answer (finder : MetaFinder Env) (fullname : str)
    (path : SearchPath) (target : Target) : M Env (option ModuleSpec) :=
  fun w =>
    match mf_find_spec finder with
    | None => legacy_answer finder fullname path w
    | Some f =>
        match f fullname path target (env w) with
        | (Returns spec, e) => (Returns spec, set_env e w)
        | (Raises AttributeError, e) =>
            legacy_answer finder fullname path (set_env e w)
        | (Raises x, e) => (Raises x, set_env e w)
        end
    end.

(** The resolvers are asked in order; the first answer that is a spec
    with a loader is the result, and later resolvers are not asked. *)
Fixpoint first_loadable (finders : list (MetaFinder Env)) (fullname : str)
    (path : SearchPath) (target : Target) : M Env (option ModuleSpec) :=
  match finders with
  | [] => ret None
  | finder :: rest =>
      spec <- answer finder fullname path target ;;
      if has_loader spec then ret spec
      else first_loadable rest fullname path target
  end.

(** The resolution restricted to the special extension: the second half
    of [PPyPathFinder.find_spec]. *)
Definition special_extension_resolution (fullname : str) (path : SearchPath)
    (target : Target) : M Env (option ModuleSpec) :=
  spec <- PathFinder_find_spec fullname path target ;;
  if has_loader spec then ret spec else ret None.
End FallbackChain.

(** ** Frames of the entry module *)

(** The frame comes from the file [file] (the entry module's [__file__]). *)
Definition from_file (file : option str) (frame : Frame) : Prop :=
  Some (co_filename frame) = file.

(** The first frame of a traceback, if any, comes from [file]. *)
Definition starts_in (file : option str) (tb : Traceback) : Prop :=
  match tb with
  | [] => True
  | frame :: _ => from_file file frame
  end.

(** The handler has nothing to replace in [e]: it is no syntax error, or its
    path has no entry in the table [files]. *)
Definition untouched (files : gmap str str) (e : ExcObj) : Prop :=
  match e with
  | SyntaxErrorObj filename _ _ _ => filename ≫= (fun f => files !! f) = None
  | OtherExcObj _ _ => True
  end.

(** ** Further readings of the state and of the host *)

(** A code point [str.encode()] accepts: a Unicode scalar value. *)
Definition encodable (c : N) : bool :=
  ((c <? 55296) || ((57343 <? c) && (c <? 1114112)))%N.

(** No character of the line is a line boundary of [str.splitlines]. *)
Definition unbroken (line : str) : Prop :=
  Forall (fun c => is_linebreak c = false) line.

Module DemoMore.

(** A resolver of the host whose [invalidate_caches] raises as long as
    the working directory is missing. *)
Definition failing : MetaFinder Demo.DemoEnv :=
  {| mf_find_spec := Some (fun _ _ _ e => (Returns None, e));
     mf_find_module := None;
     mf_invalidate_caches :=
       Some (fun e =>
               match Demo.cwd e with
               | Some _ => (Returns tt, e)
               | None => (Raises (OtherError 2), e)
               end) |}.

(** A resolver with neither [find_spec] nor [find_module]. *)
Definition bare : MetaFinder Demo.DemoEnv :=
  {| mf_find_spec := None;
     mf_find_module := None;
     mf_invalidate_caches := None |}.

(** A process whose host has the failing resolver on [sys.meta_path] and
    no working directory. *)
Definition fragile : State Demo.DemoEnv :=
  initial_state [HostFinder failing] [] (Demo.remove_cwd Demo.demo_env).

(** A hook that fails otherwise than by declining. *)
Definition broken_hook : PathHook Demo.DemoEnv :=
  fun _ e => (Raises (OtherError 3), e).

(** A preprocessor result with a lone surrogate: [c.ppy] holds one. *)
Definition c_ppy : str := lit "/src/c.ppy".
Definition loader_c : PPyLoader := {| fullname := lit "c"; path := c_ppy |}.
Definition with_surrogate (e : Demo.DemoEnv) : Demo.DemoEnv :=
  {| Demo.disk := dict_set c_ppy [55296%N] (Demo.disk e);
     Demo.dirs := Demo.dirs e; Demo.cwd := Demo.cwd e;
     Demo.invalidated := Demo.invalidated e; Demo.asked := Demo.asked e |}.

(** A resolver of the host whose [invalidate_caches] raises the first time
    it is called and returns from then on. *)
Definition failing_once : MetaFinder Demo.DemoEnv :=
  {| mf_find_spec := Some (fun _ _ _ e => (Returns None, e));
     mf_find_module := None;
     mf_invalidate_caches :=
       Some (fun e =>
               match Demo.invalidated e with
               | [] =>
                   (Raises (OtherError 2),
                    {| Demo.disk := Demo.disk e; Demo.dirs := Demo.dirs e;
                       Demo.cwd := Demo.cwd e;
                       Demo.invalidated := [0%nat];
                       Demo.asked := Demo.asked e |})
               | _ :: _ => (Returns tt, e)
               end) |}.

(** A process whose host has that resolver on [sys.meta_path]. *)
Definition shaky : State Demo.DemoEnv :=
  initial_state [HostFinder failing_once] [] Demo.demo_env.

(** Two transformed texts the compiler rejects on its line 2: a function
    header ended by CR LF and nothing after it, and an unclosed parenthesis
    on the line after a line that ends in a form feed. *)
Definition unfinished : str := lit "def f():" ++ [13%N; 10%N].
Definition form_fed : str :=
  lit "x = 1" ++ [12%N; 10%N] ++ lit "y = (" ++ [10%N].

(** The process with [text] stored as the transformed text of [a.ppy]. *)
Definition holding (text : str) : State Demo.DemoEnv :=
  set_preprocessed_files {[ Demo.a_ppy := text ]} Demo.start.
End DemoMore.

(** ** Invalidation across the resolver chain *)

Section ChainInvalidation.
Context {Env : Type}.

(** The host calls [importlib.invalidate_caches()] makes for one resolver of
    [sys.meta_path]: for [PPyPathFinder] those of the resolvers memoized in
    [cache], for another resolver its own method if it has one. *)
Definition finder_invalidations (cache : dict str (option (DirFinder Env)))
    (finder : Finder Env) : list (Ext Env unit) :=
  match finder with
  | PPyPathFinderCls => invalidations cache
  | HostFinder f =>
      match mf_invalidate_caches f with
      | Some inv => [inv]
      | None => []
      end
  end.

(** What the calls of a process leave alone once it is wired. *)
Definition wiring (w : State Env)
    : bool * list (Finder Env) * list (PathHook Env) * GetlinesImpl :=
  (done w, sys_meta_path w, _path_hooks w, linecache_getlines w).
End ChainInvalidation.

(** ** The resolver cache and the exception object after a call *)

Section AfterACall.
Context {Env : Type}.

(** What a lookup that ended in [result] did about the directory [key],
    seen from the state [w] it started in: with an entry for [key] it
    returned the entry and left the cache alone; without one and returning,
    it put what it returns under [key], at the end of the cache; without one
    and raising, it left the cache alone. *)
Definition memoizes (key : str) (w : State Env)
    (result : Outcome (option (DirFinder Env)) * State Env) : Prop :=
  match dict_get key (_path_importer_cache w) with
  | Some finder =>
      fst result = Returns finder
      /\ _path_importer_cache (snd result) = _path_importer_cache w
  | None =>
      match fst result with
      | Returns finder =>
          _path_importer_cache (snd result)
          = _path_importer_cache w ++ [(key, finder)]
      | Raises _ =>
          _path_importer_cache (snd result) = _path_importer_cache w
      end
  end.
End AfterACall.


(** * Properties *)

(** ** The Python primitives on small inputs *)

Example splitlines_boundaries :
  splitlines (lit "ab") = [lit "ab"]
  /\ splitlines [97; 10; 10; 98; 13; 10; 99; 10]%N = [[97]; []; [98]; [99]]%N
  /\ splitlines [97; 13; 98; 8232; 99]%N = [[97]; [98]; [99]]%N
  /\ splitlines [] = []
  /\ splitlines [10]%N = [[]].
Proof. repeat split; reflexivity. Qed.

Example getitem_indices :
  getitem [lit "a"; lit "b"] 0 = Returns (lit "a")
  /\ getitem [lit "a"; lit "b"] (-1) = Returns (lit "b")
  /\ getitem [lit "a"; lit "b"] 2 = Raises IndexError
  /\ getitem [lit "a"; lit "b"] (-3) = Raises IndexError.
Proof. repeat split; reflexivity. Qed.

Example encode_utf8_samples :
  encode (lit "x") = Returns [120]%N
  /\ encode [233]%N = Returns [195; 169]%N
  /\ encode [8364]%N = Returns [226; 130; 172]%N
  /\ encode [128512]%N = Returns [240; 159; 152; 128]%N
  /\ encode [55296]%N = Raises UnicodeEncodeError.
Proof. repeat split; reflexivity. Qed.

(** ** Frame reasoning: which fields a computation leaves alone *)

Section Frame.
Context {Env : Type} {host : Host Env}.

(** [m] never changes what [f] reads from the state, whether it returns
    or raises. *)
Definition preserves {A B} (f : State Env -> B) (m : M Env A) : Prop :=
  forall w, f (snd (m w)) = f w.

(** [f] does not read the host part of the state. *)
Definition host_blind {B} (f : State Env -> B) : Prop :=
  forall e w, f (set_env e w) = f w.

Lemma preserves_ret {A B} (f : State Env -> B) (a : A) : preserves f (ret a).
Proof. intros w; reflexivity. Qed.

Lemma preserves_raise {A B} (f : State Env -> B) e :
  preserves f (raise (A := A) e).
Proof. intros w; reflexivity. Qed.

Lemma preserves_gets {A B} (f : State Env -> B) (g : State Env -> A) :
  preserves f (gets g).
Proof. intros w; reflexivity. Qed.

Lemma preserves_of_outcome {A B} (f : State Env -> B) (o : Outcome A) :
  preserves f (of_outcome o).
Proof. intros w; reflexivity. Qed.

Lemma preserves_modify {B} (f : State Env -> B) g :
  (forall w, f (g w) = f w) -> preserves f (modify g).
Proof. intros H w; apply H. Qed.

Lemma preserves_lift {A B} (f : State Env -> B) (c : Ext Env A) :
  host_blind f -> preserves f (lift c).
Proof.
  intros H w. unfold lift. destruct (c (env w)) as [r e]. apply H.
Qed.

Lemma preserves_bind {A A' B} (f : State Env -> B) (m : M Env A)
    (k : A -> M Env A') :
  preserves f m -> (forall a, preserves f (k a)) -> preserves f (bind m k).
Proof.
  intros Hm Hk w. unfold bind. specialize (Hm w).
  destruct (m w) as [[a | e] w1]; simpl in *.
  - rewrite Hk. exact Hm.
  - exact Hm.
Qed.

Lemma preserves_try_except {A B} (f : State Env -> B) (body : M Env A)
    catches handler :
  preserves f body -> preserves f handler ->
  preserves f (try_except body catches handler).
Proof.
  intros Hb Hh w. unfold try_except. specialize (Hb w).
  destruct (body w) as [[a | e] w1]; simpl in *; [exact Hb |].
  destruct (catches e); simpl; [rewrite Hh |]; exact Hb.
Qed.

Lemma preserves_invalidate_each {B} (f : State Env -> B) finders :
  host_blind f -> preserves f (PPyPathFinder.invalidate_each finders).
Proof.
  intros H. induction finders as [| [d |] rest IH]; simpl.
  - apply preserves_ret.
  - apply preserves_bind; [| intros _; exact IH].
    unfold PPyPathFinder.invalidate_one.
    destruct (df_invalidate_caches d);
      [apply preserves_lift, H | apply preserves_ret].
  - apply preserves_bind; [apply preserves_ret | intros _; exact IH].
Qed.

Lemma preserves_invalidate_caches {B} (f : State Env -> B) :
  host_blind f -> preserves f PPyPathFinder.invalidate_caches.
Proof.
  intros H. unfold PPyPathFinder.invalidate_caches.
  apply preserves_bind; [apply preserves_gets |].
  intros cache. apply preserves_invalidate_each, H.
Qed.

Lemma preserves_invalidate_finders {B} (f : State Env -> B) finders :
  host_blind f -> preserves f (invalidate_finders finders).
Proof.
  intros H. induction finders as [| [| m] rest IH]; simpl.
  - apply preserves_ret.
  - apply preserves_bind; [| intros _; exact IH].
    apply preserves_invalidate_caches, H.
  - apply preserves_bind; [| intros _; exact IH].
    destruct (mf_invalidate_caches m);
      [apply preserves_lift, H | apply preserves_ret].
Qed.

Lemma preserves_importlib_invalidate_caches {B} (f : State Env -> B) :
  host_blind f -> preserves f importlib_invalidate_caches.
Proof.
  intros H. unfold importlib_invalidate_caches.
  apply preserves_bind; [apply preserves_gets |].
  intros finders. apply preserves_invalidate_finders, H.
Qed.

Lemma preserves_path_hooks_from {B} (f : State Env -> B) hooks p :
  host_blind f -> preserves f (PPyPathFinder.path_hooks_from hooks p).
Proof.
  intros H. induction hooks as [| hook rest IH]; simpl.
  - apply preserves_ret.
  - apply preserves_try_except; [apply preserves_lift, H | exact IH].
Qed.

Lemma preserves_path_hooks {B} (f : State Env -> B) p :
  host_blind f -> preserves f (PPyPathFinder._path_hooks p).
Proof.
  intros H. unfold PPyPathFinder._path_hooks.
  apply preserves_bind; [apply preserves_gets |].
  intros hooks. apply preserves_path_hooks_from, H.
Qed.
End Frame.

(** Frame goals over the combinators of [M]. *)
Ltac frame :=
  repeat first
    [ apply preserves_ret
    | apply preserves_raise
    | apply preserves_gets
    | apply preserves_of_outcome
    | apply preserves_modify; intros ?; reflexivity
    | apply preserves_lift; intros ? ?; reflexivity
    | apply preserves_invalidate_caches; intros ? ?; reflexivity
    | apply preserves_importlib_invalidate_caches; intros ? ?; reflexivity
    | apply preserves_path_hooks; intros ? ?; reflexivity
    | apply preserves_try_except
    | apply preserves_bind; [| intros ?]
    | match goal with
      | |- preserves _ (match ?x with _ => _ end) => destruct x
      end ].

(** ** The diagnostic shim *)

Section Getlines.
Context {Env : Type} {host : Host Env}.

End Getlines.

(** ** Installation *)

Section Installation.
Context {Env : Type} {host : Host Env}.

Lemma install_when_done config (w : State Env) :
  done w = true ->
  install config w =
    (Returns tt, set_PPyPathFinder_config config (set_PPyLoader_config config w)).
Proof.
  intros Hd. unfold install, bind, PPyLoader.set_config,
    PPyPathFinder.set_config, modify, gets. simpl. rewrite Hd. reflexivity.
Qed.

Lemma install_first_time config (w w' : State Env) :
  done w = false ->
  install config w = (Returns tt, w') ->
  sys_meta_path w' = PPyPathFinderCls :: sys_meta_path w
  /\ _path_hooks w' = _path_hooks w ++ [FileFinder_path_hook]
  /\ PPyPathFinder_config w' = config
  /\ PPyLoader_config w' = config
  /\ linecache_getlines w' = PatchedGetlines
  /\ sys_path_importer_cache w' = []
  /\ done w' = true.
Proof.
  intros Hd. unfold install, bind, PPyLoader.set_config,
    PPyPathFinder.set_config, modify, gets. simpl. rewrite Hd.
  match goal with
  | |- context [importlib_invalidate_caches ?w0] =>
      set (w3 := w0);
      pose proof (preserves_importlib_invalidate_caches sys_meta_path
                    (fun _ _ => eq_refl) w3) as Hmeta;
      pose proof (preserves_importlib_invalidate_caches _path_hooks
                    (fun _ _ => eq_refl) w3) as Hhooks;
      pose proof (preserves_importlib_invalidate_caches PPyPathFinder_config
                    (fun _ _ => eq_refl) w3) as Hfc;
      pose proof (preserves_importlib_invalidate_caches PPyLoader_config
                    (fun _ _ => eq_refl) w3) as Hlc;
      pose proof (preserves_importlib_invalidate_caches
                    sys_path_importer_cache (fun _ _ => eq_refl) w3) as Hpic
  end.
  destruct (importlib_invalidate_caches w3) as [[[] | e] w4]; simpl in *;
    [| discriminate].
  intros [= <-]. simpl.
  rewrite Hmeta, Hhooks, Hfc, Hlc, Hpic. repeat split; reflexivity.
Qed.

Lemma last_cons_default {A} (c : A) rest d :
  List.last (c :: rest) d = List.last rest c.
Proof.
  revert c d. induction rest as [| x rest IH]; intros c d; [reflexivity |].
  change (List.last (x :: rest) d = List.last (x :: rest) c).
  rewrite !IH. reflexivity.
Qed.

Lemma install_all_when_done configs (w : State Env) :
  done w = true ->
  exists w',
    install_all configs w = (Returns tt, w')
    /\ sys_meta_path w' = sys_meta_path w
    /\ _path_hooks w' = _path_hooks w
    /\ PPyPathFinder_config w' = List.last configs (PPyPathFinder_config w)
    /\ PPyLoader_config w' = List.last configs (PPyLoader_config w)
    /\ done w' = true.
Proof.
  revert w. induction configs as [| config rest IH]; intros w Hd.
  - exists w. repeat split; try reflexivity. exact Hd.
  - simpl install_all. unfold bind at 1. rewrite install_when_done by exact Hd.
    destruct (IH (set_PPyPathFinder_config config
                    (set_PPyLoader_config config w)) Hd)
      as (w' & Hrun & Hmeta & Hhooks & Hfc & Hlc & Hd').
    exists w'. rewrite Hrun, Hmeta, Hhooks, Hfc, Hlc.
    rewrite !(last_cons_default config rest).
    repeat split; try reflexivity. exact Hd'.
Qed.

(** C1, as the code has it: if the process has not been wired and
    [install] is called N >= 1 times, with configurations
    [configs ++ [config_N]], and every call returns, then [sys.meta_path] is the old chain with exactly one
    [PPyPathFinder] put in front, [_path_hooks] is the old list with
    exactly one hook (the one for the extension) put at its end, whatever
    N is, and both classes hold the configuration of the last call. *)
Theorem install_wires_exactly_once
    (configs : list Config) (config_N : Config) (w w' : State Env) :
  done w = false ->
  install_all (configs ++ [config_N]) w = (Returns tt, w') ->
  sys_meta_path w' = PPyPathFinderCls :: sys_meta_path w
  /\ count_PPyPathFinder (sys_meta_path w')
     = S (count_PPyPathFinder (sys_meta_path w))
  /\ _path_hooks w' = _path_hooks w ++ [FileFinder_path_hook]
  /\ length (_path_hooks w') = S (length (_path_hooks w))
  /\ PPyPathFinder_config w' = config_N
  /\ PPyLoader_config w' = config_N
  /\ done w' = true.
Proof.
  intros Hd Hrun.
  assert (exists first rest, configs ++ [config_N] = first :: rest
            /\ List.last rest first = config_N) as (first & rest & Heq & Hlast).
  { destruct configs as [| c cs]; simpl.
    - exists config_N, []. split; reflexivity.
    - exists c, (cs ++ [config_N]). split; [reflexivity |].
      apply last_last. }
  rewrite Heq in Hrun. simpl in Hrun. unfold bind in Hrun at 1.
  destruct (install first w) as [[[] | e] w1] eqn:Hfirst; [| discriminate].
  destruct (install_first_time first w w1 Hd Hfirst)
    as (Hmeta & Hhooks & Hfc & Hlc & _ & _ & Hd1).
  destruct (install_all_when_done rest w1 Hd1)
    as (w2 & Hrest & Hmeta2 & Hhooks2 & Hfc2 & Hlc2 & Hd2).
  rewrite Hrest in Hrun. injection Hrun as <-.
  rewrite Hmeta2, Hhooks2, Hfc2, Hlc2, Hmeta, Hhooks, Hfc, Hlc.
  repeat split; try assumption.
  rewrite length_app. simpl. lia.
Qed.
End Installation.

(** [install] three times on the demo host: one resolver, one hook, the
    last configuration. *)
Lemma install_wires_exactly_once_witness :
  let c1 : Config := {[ lit "prefer_python" := VBool true ]} in
  let c2 : Config := ∅ in
  let c3 : Config := {[ lit "tabs" := VInt 4 ]} in
  let w' := snd (install_all ([c1; c2] ++ [c3]) Demo.start) in
  sys_meta_path w' = PPyPathFinderCls :: sys_meta_path Demo.start
  /\ count_PPyPathFinder (sys_meta_path w')
     = S (count_PPyPathFinder (sys_meta_path Demo.start))
  /\ _path_hooks w' = _path_hooks Demo.start ++ [FileFinder_path_hook]
  /\ length (_path_hooks w') = S (length (_path_hooks Demo.start))
  /\ PPyPathFinder_config w' = c3
  /\ PPyLoader_config w' = c3
  /\ done w' = true.
Proof.
  cbv zeta.
  apply (install_wires_exactly_once
           [ {[ lit "prefer_python" := VBool true ]}; ∅ ]
           {[ lit "tabs" := VInt 4 ]} Demo.start).
  - reflexivity.
  - vm_compute. reflexivity.
Defined.

(** C1 as stated fails for a sequence in which a call raises: on a host
    with a resolver whose [invalidate_caches] raises once, the first
    [install] raises after having put [PPyPathFinder] and the hook in place
    and before setting [done]; the second [install] returns and wires again,
    so two calls leave two [PPyPathFinder] entries and two hooks. *)
Lemma install_wires_exactly_once_counterexample :
  let c1 : Config := ∅ in
  let c2 : Config := {[ lit "prefer_python" := VBool true ]} in
  let w1 := snd (install c1 DemoMore.shaky) in
  let w2 := snd (install c2 w1) in
  fst (install c1 DemoMore.shaky) = Raises (OtherError 2)
  /\ fst (install c2 w1) = Returns tt
  /\ w2 = after_calls [CallInstall c1; CallInstall c2] DemoMore.shaky
  /\ count_PPyPathFinder (sys_meta_path DemoMore.shaky) = 0%nat
  /\ count_PPyPathFinder (sys_meta_path w2) = 2%nat
  /\ length (_path_hooks w2) = 2%nat.
Proof. vm_compute. repeat split. Qed.

(** ** The loader *)

Section Loader.
Context {Env : Type} {host : Host Env}.

Lemma set_env_same (w : State Env) : set_env (env w) w = w.
Proof. destruct w; reflexivity. Qed.

(** One call of [get_data], step by step. *)
Lemma get_data_eq (self : PPyLoader) (filename : str) (w : State Env) :
  PPyLoader.get_data self filename w =
    match preprocess (path self) (PPyLoader_config w) (env w) with
    | (Returns data, e) =>
        (encode data,
         set_preprocessed_files
           (<[path self := data]> (preprocessed_files w)) (set_env e w))
    | (Raises x, e) => (Raises x, set_env e w)
    end.
Proof.
  unfold PPyLoader.get_data, bind, gets, lift, modify, of_outcome. simpl.
  destruct (preprocess (path self) (PPyLoader_config w) (env w))
    as [[data | x] e]; reflexivity.
Qed.

(** C10: when the preprocessor raises during [get_data], the same
    exception leaves [get_data], and [preprocessed_files] (like every other
    table of the module) is what it was before the call: no entry is
    created, overwritten or removed.  Only the host may have changed, as
    far as the preprocessor changed it before raising. *)
Theorem get_data_preprocessor_raises
    (self : PPyLoader) (filename : str) (w : State Env) (x : Exn) (e : Env) :
  preprocess (path self) (PPyLoader_config w) (env w) = (Raises x, e) ->
  PPyLoader.get_data self filename w = (Raises x, set_env e w)
  /\ preprocessed_files (snd (PPyLoader.get_data self filename w))
     = preprocessed_files w
  /\ preprocessed_files (snd (PPyLoader.get_data self filename w)) !! path self
     = preprocessed_files w !! path self.
Proof.
  intros H. rewrite get_data_eq, H. repeat split; reflexivity.
Qed.

(** C2: a call of [get_data] on the loader bound to path P, whatever its
    argument and whatever [preprocessed_files] holds already, has the raw
    content of P read as it is now, the preprocessor applied to that text
    and the active configuration, the result stored under P in the place of
    any earlier entry, and the result returned (encoded).  If the file is
    then changed on disk and loaded again, the entry is the transform of
    the second content. *)
Theorem get_data_transforms_current_content
    (read_text : str -> Env -> Outcome str)
    (transform : str -> Config -> Outcome str)
    (self : PPyLoader) (filename : str) (w : State Env)
    (raw data : str) (b : bytes) :
  (forall p config e,
     preprocess p config e
     = preprocess_from_source read_text transform p config e) ->
  read_text (path self) (env w) = Returns raw ->
  transform raw (PPyLoader_config w) = Returns data ->
  encode data = Returns b ->
  let w1 := snd (PPyLoader.get_data self filename w) in
  PPyLoader.get_data self filename w = (Returns b, w1)
  /\ preprocessed_files w1 = <[path self := data]> (preprocessed_files w)
  /\ preprocessed_files w1 !! path self = Some data
  /\ forall (change : Env -> Env) (filename' : str) (raw' data' : str)
       (b' : bytes),
       read_text (path self) (change (env w1)) = Returns raw' ->
       transform raw' (PPyLoader_config w) = Returns data' ->
       encode data' = Returns b' ->
       let w2 :=
         snd (PPyLoader.get_data self filename'
                (set_env (change (env w1)) w1)) in
       PPyLoader.get_data self filename' (set_env (change (env w1)) w1)
       = (Returns b', w2)
       /\ preprocessed_files w2 !! path self = Some data'.
Proof.
  intros Hpre Hread Htr Henc w1. subst w1.
  rewrite get_data_eq, Hpre. unfold preprocess_from_source.
  rewrite Hread, Htr, Henc. simpl.
  split; [reflexivity |]. split; [reflexivity |].
  split; [apply lookup_insert_eq |].
  intros change filename' raw' data' b' Hread' Htr' Henc'.
  rewrite get_data_eq, Hpre. unfold preprocess_from_source. simpl.
  rewrite Hread', Htr', Henc'. simpl.
  split; [reflexivity | apply lookup_insert_eq].
Qed.
End Loader.

(** Loading [b.ppy], which the demo preprocessor rejects. *)
Lemma get_data_preprocessor_raises_witness :
  PPyLoader.get_data Demo.loader_b Demo.b_ppy Demo.start
  = (Raises (OtherError 1), set_env Demo.demo_env Demo.start)
  /\ preprocessed_files
       (snd (PPyLoader.get_data Demo.loader_b Demo.b_ppy Demo.start))
     = preprocessed_files Demo.start
  /\ preprocessed_files
       (snd (PPyLoader.get_data Demo.loader_b Demo.b_ppy Demo.start))
       !! path Demo.loader_b
     = preprocessed_files Demo.start !! path Demo.loader_b.
Proof.
  apply (get_data_preprocessor_raises Demo.loader_b Demo.b_ppy Demo.start
           (OtherError 1) Demo.demo_env).
  reflexivity.
Defined.

(** Loading [a.ppy] on the demo host, rewriting it on disk and loading it
    again. *)
Lemma get_data_transforms_current_content_witness :
  let w1 := snd (PPyLoader.get_data Demo.loader_a Demo.a_ppy Demo.start) in
  let w2 :=
    snd (PPyLoader.get_data Demo.loader_a Demo.a_ppy
           (set_env (Demo.edit_a (env w1)) w1)) in
  preprocessed_files w1 !! Demo.a_ppy
  = Some (lit "pass" ++ [10%N] ++ lit "x = 1")
  /\ preprocessed_files w2 !! Demo.a_ppy
     = Some (lit "pass" ++ [10%N] ++ lit "y = 2").
Proof.
  cbv zeta.
  destruct (get_data_transforms_current_content (host := Demo.demo_host)
              Demo.read_text Demo.transform Demo.loader_a Demo.a_ppy Demo.start
              (lit "x = 1") (lit "pass" ++ [10%N] ++ lit "x = 1")
              (lit "pass" ++ [10%N] ++ lit "x = 1")
              (fun _ _ _ => eq_refl) eq_refl eq_refl eq_refl)
    as (_ & _ & Hfirst & Hagain).
  split; [exact Hfirst |].
  destruct (Hagain Demo.edit_a Demo.a_ppy
              (lit "y = 2") (lit "pass" ++ [10%N] ++ lit "y = 2")
              (lit "pass" ++ [10%N] ++ lit "y = 2")
              eq_refl eq_refl eq_refl) as [_ Hsecond].
  exact Hsecond.
Defined.

(** ** What the calls of a process life do to the tables *)

Section Lifetime.
Context {Env : Type} {host : Host Env}.

Lemma preserves_cached_or_hooked {B} (f : State Env -> B) p :
  host_blind f ->
  (forall v w, f (set_path_importer_cache v w) = f w) ->
  preserves f (PPyPathFinder.cached_or_hooked p).
Proof.
  intros Hb Hc. unfold PPyPathFinder.cached_or_hooked.
  apply preserves_bind; [apply preserves_gets | intros cache].
  destruct (dict_get p cache); [apply preserves_ret |].
  apply preserves_bind; [apply preserves_path_hooks, Hb | intros finder].
  apply preserves_bind; [| intros _; apply preserves_ret].
  apply preserves_modify. intros w. apply Hc.
Qed.

Lemma preserves_path_importer_cache {B} (f : State Env -> B) p :
  host_blind f ->
  (forall v w, f (set_path_importer_cache v w) = f w) ->
  preserves f (PPyPathFinder._path_importer_cache p).
Proof.
  intros Hb Hc. destruct p as [| c p]; simpl;
    [| apply preserves_cached_or_hooked; assumption].
  intros w. unfold lift. destruct (getcwd (env w)) as [[d | x] e].
  - rewrite (preserves_cached_or_hooked f d Hb Hc). apply Hb.
  - destruct (is_FileNotFoundError x); apply Hb.
Qed.

Lemma install_preserves_preprocessed_files config :
  preserves preprocessed_files (install config).
Proof.
  unfold install, PPyLoader.set_config, PPyPathFinder.set_config. frame.
Qed.

Lemma preserves_handle_exc {B} (f : State Env -> B) module e_type e tb :
  (forall v w, f (set_stderr v w) = f w) ->
  preserves f (handle_exc module e_type e tb).
Proof.
  intros Hs. unfold handle_exc, print_exception.
  apply preserves_bind; [apply preserves_gets | intros files].
  apply preserves_bind; [apply preserves_of_outcome | intros e'].
  apply preserves_bind; [apply preserves_of_outcome | intros tb'].
  apply preserves_modify. intros w. apply Hs.
Qed.

Lemma preserves_linecache_getlines_call {B} (f : State Env -> B) p mg :
  host_blind f -> preserves f (linecache_getlines_call p mg).
Proof.
  intros Hb. unfold linecache_getlines_call, patched_getlines.
  apply preserves_bind; [apply preserves_gets | intros impl].
  destruct impl; [apply preserves_lift, Hb |].
  apply preserves_bind; [apply preserves_gets | intros files].
  destruct (files !! p); [apply preserves_ret | apply preserves_lift, Hb].
Qed.

(** Only [get_data] writes to [preprocessed_files], and only when the
    preprocessor has returned. *)
Lemma after_call_preprocessed_files (c : Call Env) (w : State Env) :
  preprocessed_files (after_call c w) =
    match c with
    | CallGetData self _ =>
        match fst (preprocess (path self) (PPyLoader_config w) (env w)) with
        | Returns data => <[path self := data]> (preprocessed_files w)
        | Raises _ => preprocessed_files w
        end
    | _ => preprocessed_files w
    end.
Proof.
  destruct c; unfold after_call.
  - apply install_preserves_preprocessed_files.
  - apply (preserves_invalidate_caches preprocessed_files).
    intros ? ?; reflexivity.
  - apply (preserves_path_importer_cache preprocessed_files);
      intros ? ?; reflexivity.
  - rewrite get_data_eq.
    destruct (preprocess (path self) (PPyLoader_config w) (env w))
      as [[data | x] e]; reflexivity.
  - apply (preserves_linecache_getlines_call preprocessed_files).
    intros ? ?; reflexivity.
  - apply (preserves_handle_exc preprocessed_files). intros; reflexivity.
  - reflexivity.
Qed.

Lemma transform_cache_entries_from (cs : list (Call Env)) (w : State Env)
    (p : str) :
  is_Some (preprocessed_files (after_calls cs w) !! p)
  <-> is_Some (preprocessed_files w !! p)
      \/ loaded_with_result p cs w = true.
Proof.
  revert w. induction cs as [| c rest IH]; intros w.
  - simpl. split; [auto | intros [H | H]; [exact H | discriminate]].
  - change (after_calls (c :: rest) w) with (after_calls rest (after_call c w)).
    rewrite IH, after_call_preprocessed_files. simpl loaded_with_result.
    rewrite orb_true_iff, andb_true_iff.
    assert (forall self filename,
              c = CallGetData self filename ->
              (is_Some (match fst (preprocess (path self) (PPyLoader_config w)
                                     (env w)) with
                        | Returns data =>
                            <[path self := data]> (preprocessed_files w)
                        | Raises _ => preprocessed_files w
                        end !! p)
               <-> is_Some (preprocessed_files w !! p)
                   \/ (loads p c = true /\ preprocess_returns p w = true)))
      as Hload.
    { intros self filename ->. unfold loads, preprocess_returns.
      rewrite bool_decide_eq_true.
      destruct (decide (path self = p)) as [<- | Hne].
      - destruct (fst (preprocess (path self) (PPyLoader_config w) (env w)))
          as [data | x].
        + rewrite lookup_insert_eq. split; [intros _ | eauto].
          right. split; reflexivity.
        + split; [auto | intros [H | [_ H]]; [exact H | discriminate]].
      - destruct (fst (preprocess (path self) (PPyLoader_config w) (env w)))
          as [data | x].
        + rewrite lookup_insert_ne by exact Hne.
          split; [auto | intros [H | [H _]]; [exact H | contradiction]].
        + split; [auto | intros [H | [H _]]; [exact H | contradiction]]. }
    destruct c; try (rewrite (Hload _ _ eq_refl); tauto);
      simpl; split; intros H; try tauto;
      destruct H as [H | [[H _] | H]]; auto; discriminate.
Qed.

(** C8, as the code has it: at every point of the life of a process, a
    path has an entry in [preprocessed_files] exactly when [get_data] has
    been called on a loader bound to that path with the preprocessor
    returning.  (A request for the source lines of a file adds no entry, and
    neither does a load whose preprocessor raises.) *)
Theorem transform_cache_entries
    (meta_path : list (Finder Env))
    (importer_cache : dict str (option (DirFinder Env))) (e : Env)
    (cs : list (Call Env)) (p : str) :
  is_Some
    (preprocessed_files
       (after_calls cs (initial_state meta_path importer_cache e)) !! p)
  <-> loaded_with_result p cs (initial_state meta_path importer_cache e)
      = true.
Proof.
  rewrite transform_cache_entries_from. simpl.
  rewrite lookup_empty. split; [| auto].
  intros [[x H] | H]; [discriminate | exact H].
Qed.
End Lifetime.

(** C8 as stated fails in both directions of "or": on the demo host, after
    [install], the lines of [a.ppy] are requested through [linecache] and no
    entry for it appears; and [b.ppy], whose load the preprocessor rejects,
    has been loaded and has no entry either. *)
Lemma transform_cache_entries_counterexample :
  let asked := [CallInstall ∅; CallGetlines Demo.a_ppy None] in
  let tried := [CallGetData Demo.loader_b Demo.b_ppy] in
  (existsb (requests_text Demo.a_ppy) asked = true
   /\ preprocessed_files (after_calls asked Demo.start) !! Demo.a_ppy = None)
  /\ (existsb (loads Demo.b_ppy) tried = true
      /\ preprocessed_files (after_calls tried Demo.start) !! Demo.b_ppy = None).
Proof. vm_compute. repeat split. Qed.

(** ** The cache of directory resolvers *)

Section ResolverCache.
Context {Env : Type} {host : Host Env}.

Lemma dict_get_set {V} (p q : str) (v : V) (d : dict str V) :
  dict_get p (dict_set q v d)
  = if decide (p = q) then Some v else dict_get p d.
Proof.
  induction d as [| [k v'] rest IH]; simpl.
  - destruct (decide (p = q)); reflexivity.
  - destruct (decide (q = k)) as [-> | Hqk]; simpl.
    + destruct (decide (p = k)); reflexivity.
    + destruct (decide (p = k)) as [-> | Hpk].
      * destruct (decide (k = q)); [congruence | reflexivity].
      * exact IH.
Qed.

Lemma dict_set_keys {V} (q : str) (v : V) (d : dict str V) :
  is_Some (dict_get q d) -> List.map fst (dict_set q v d) = List.map fst d.
Proof.
  induction d as [| [k v'] rest IH]; simpl.
  - intros [x H]; discriminate.
  - destruct (decide (q = k)) as [-> | Hqk]; simpl; [reflexivity |].
    intros H. rewrite IH by exact H. reflexivity.
Qed.

Lemma invalidate_each_eq (finders : list (option (DirFinder Env)))
    (w : State Env) :
  PPyPathFinder.invalidate_each finders w =
    (fst (call_each (omap (fun f => f ≫= df_invalidate_caches) finders)
            (env w)),
     set_env (snd (call_each
                     (omap (fun f => f ≫= df_invalidate_caches) finders)
                     (env w))) w).
Proof.
  revert w. induction finders as [| [d |] rest IH]; intros w; simpl.
  - unfold ret. rewrite set_env_same. reflexivity.
  - unfold bind, PPyPathFinder.invalidate_one.
    destruct (df_invalidate_caches d) as [inv |]; simpl.
    + unfold lift. destruct (inv (env w)) as [[[] | x] e']; simpl;
        [| reflexivity].
      rewrite IH. reflexivity.
    + apply IH.
  - unfold bind. simpl. apply IH.
Qed.

(** C7, as the code has it: [PPyPathFinder.invalidate_caches()] calls
    [invalidate_caches] on each resolver memoized in
    [_path_importer_cache] that has the method, in the order of the cache
    (a call that raises ends the walk), and changes nothing but the host:
    every entry of [_path_importer_cache] stays, and so do
    [preprocessed_files] and [done]. *)
Theorem invalidate_caches_propagates_and_keeps (w : State Env) :
  PPyPathFinder.invalidate_caches w =
    (fst (call_each (invalidations (_path_importer_cache w)) (env w)),
     set_env (snd (call_each (invalidations (_path_importer_cache w))
                     (env w))) w)
  /\ _path_importer_cache (snd (PPyPathFinder.invalidate_caches w))
     = _path_importer_cache w
  /\ preprocessed_files (snd (PPyPathFinder.invalidate_caches w))
     = preprocessed_files w
  /\ done (snd (PPyPathFinder.invalidate_caches w)) = done w.
Proof.
  assert (PPyPathFinder.invalidate_caches w =
    (fst (call_each (invalidations (_path_importer_cache w)) (env w)),
     set_env (snd (call_each (invalidations (_path_importer_cache w))
                     (env w))) w)) as H.
  { unfold PPyPathFinder.invalidate_caches, bind, gets. simpl.
    apply invalidate_each_eq. }
  rewrite H. repeat split.
Qed.
End ResolverCache.

(** C7 as stated fails: on the demo host the resolver of [/src] is memoized,
    [invalidate_caches] tells it to invalidate, and the cache still holds
    its entry. *)
Lemma invalidate_caches_counterexample :
  let w :=
    after_calls [CallInstall ∅; CallPathImporterCache Demo.src_dir]
      Demo.start in
  let w' := snd (PPyPathFinder.invalidate_caches w) in
  List.map fst (_path_importer_cache w) = [Demo.src_dir]
  /\ List.map fst (_path_importer_cache w') = [Demo.src_dir]
  /\ Demo.invalidated (env w') = [length Demo.src_dir].
Proof. vm_compute. repeat split. Qed.

Section ResolverCacheLookup.
Context {Env : Type} {host : Host Env}.

(** A hit: the memoized value is returned and nothing is called. *)
Lemma cached_or_hooked_hit p finder (w : State Env) :
  dict_get p (_path_importer_cache w) = Some finder ->
  PPyPathFinder.cached_or_hooked p w = (Returns finder, w).
Proof.
  intros H. unfold PPyPathFinder.cached_or_hooked, bind, gets. simpl.
  rewrite H. reflexivity.
Qed.

(** A miss: the hooks are asked, and what they return is stored. *)
Lemma cached_or_hooked_miss p (w : State Env) :
  dict_get p (_path_importer_cache w) = None ->
  PPyPathFinder.cached_or_hooked p w =
    match PPyPathFinder._path_hooks p w with
    | (Returns finder, w1) =>
        (Returns finder,
         set_path_importer_cache
           (dict_set p finder (_path_importer_cache w)) w1)
    | (Raises x, w1) => (Raises x, w1)
    end.
Proof.
  intros H. unfold PPyPathFinder.cached_or_hooked, bind, gets. simpl.
  rewrite H.
  pose proof (preserves_path_hooks _path_importer_cache p
                (fun _ _ => eq_refl) w) as Hc.
  destruct (PPyPathFinder._path_hooks p w) as [[finder | x] w1];
    simpl in *; [| reflexivity].
  unfold modify, ret. rewrite Hc. reflexivity.
Qed.

Lemma cached_or_hooked_stores p finder (w w' : State Env) :
  PPyPathFinder.cached_or_hooked p w = (Returns finder, w') ->
  dict_get p (_path_importer_cache w') = Some finder.
Proof.
  destruct (dict_get p (_path_importer_cache w)) as [f |] eqn:Hget.
  - rewrite (cached_or_hooked_hit p f w Hget). intros [= <- <-]. exact Hget.
  - rewrite (cached_or_hooked_miss p w Hget).
    destruct (PPyPathFinder._path_hooks p w) as [[f | x] w1];
      [| discriminate].
    intros [= <- <-]. simpl. rewrite dict_get_set.
    destruct (decide (p = p)); [reflexivity | contradiction].
Qed.

Lemma cached_or_hooked_keeps q (w : State Env) p finder :
  dict_get p (_path_importer_cache w) = Some finder ->
  dict_get p (_path_importer_cache (snd (PPyPathFinder.cached_or_hooked q w)))
  = Some finder.
Proof.
  intros Hp.
  destruct (dict_get q (_path_importer_cache w)) as [f |] eqn:Hget.
  - rewrite (cached_or_hooked_hit q f w Hget). exact Hp.
  - rewrite (cached_or_hooked_miss q w Hget).
    pose proof (preserves_path_hooks _path_importer_cache q
                  (fun _ _ => eq_refl) w) as Hc.
    destruct (PPyPathFinder._path_hooks q w) as [[f | x] w1]; simpl in *.
    + rewrite dict_get_set.
      destruct (decide (p = q)) as [-> | Hne]; [congruence | exact Hp].
    + rewrite Hc. exact Hp.
Qed.

Lemma path_importer_cache_keeps q (w : State Env) p finder :
  dict_get p (_path_importer_cache w) = Some finder ->
  dict_get p
    (_path_importer_cache (snd (PPyPathFinder._path_importer_cache q w)))
  = Some finder.
Proof.
  intros Hp. destruct q as [| c q]; simpl;
    [| apply cached_or_hooked_keeps, Hp].
  unfold lift. destruct (getcwd (env w)) as [[d | x] e].
  - apply cached_or_hooked_keeps. exact Hp.
  - destruct (is_FileNotFoundError x); exact Hp.
Qed.

(** No call of the module takes an entry out of [_path_importer_cache] or
    changes it. *)
Lemma after_call_keeps (c : Call Env) (w : State Env) p finder :
  dict_get p (_path_importer_cache w) = Some finder ->
  dict_get p (_path_importer_cache (after_call c w)) = Some finder.
Proof.
  intros Hp. destruct c; unfold after_call.
  - assert (preserves _path_importer_cache (install config)) as H.
    { unfold install, PPyLoader.set_config, PPyPathFinder.set_config.
      frame. }
    rewrite H. exact Hp.
  - rewrite (preserves_invalidate_caches _path_importer_cache
               (fun _ _ => eq_refl)). exact Hp.
  - apply path_importer_cache_keeps, Hp.
  - rewrite get_data_eq.
    destruct (preprocess (path self) (PPyLoader_config w) (env w))
      as [[data | x] e]; exact Hp.
  - rewrite (preserves_linecache_getlines_call _path_importer_cache
               filename module_globals (fun _ _ => eq_refl)). exact Hp.
  - rewrite (preserves_handle_exc _path_importer_cache module e_type e tb
               (fun _ _ => eq_refl)). exact Hp.
  - exact Hp.
Qed.

Lemma after_calls_keep (cs : list (Call Env)) (w : State Env) p finder :
  dict_get p (_path_importer_cache w) = Some finder ->
  dict_get p (_path_importer_cache (after_calls cs w)) = Some finder.
Proof.
  revert w. induction cs as [| c rest IH]; intros w Hp; [exact Hp |].
  apply (IH (after_call c w)), after_call_keeps, Hp.
Qed.

Lemma path_hooks_all_decline hooks p (w : State Env) e' :
  all_decline hooks p (env w) = Some e' ->
  PPyPathFinder.path_hooks_from hooks p w = (Returns None, set_env e' w).
Proof.
  revert w. induction hooks as [| hook rest IH]; intros w; simpl.
  - intros [= <-]. unfold ret. rewrite set_env_same. reflexivity.
  - unfold try_except, lift.
    destruct (hook p (env w)) as [[f | x] e1]; [discriminate |].
    destruct x; try discriminate. simpl. intros H.
    rewrite (IH (set_env e1 w)) by exact H. reflexivity.
Qed.

(** C9: a lookup with the empty key asks for the working directory each
    time and goes on with that directory; when the working directory
    cannot be had ([FileNotFoundError]) it returns [None] and stores
    nothing, so the next lookup asks again.  A lookup of a non-empty key
    that returns has its result memoized under the key, and the entry
    stays, with the same result and no hook asked, whatever calls follow;
    this also holds for the result [None], stored when every registered
    hook declines. *)
Theorem path_importer_cache_lookup (w : State Env) :
  (forall d e',
     getcwd (env w) = (Returns d, e') ->
     PPyPathFinder._path_importer_cache [] w
     = PPyPathFinder.cached_or_hooked d (set_env e' w))
  /\ (forall e',
        getcwd (env w) = (Raises FileNotFoundError, e') ->
        PPyPathFinder._path_importer_cache [] w
        = (Returns None, set_env e' w)
        /\ _path_importer_cache
             (snd (PPyPathFinder._path_importer_cache [] w))
           = _path_importer_cache w)
  /\ (forall p finder w',
        p <> [] ->
        PPyPathFinder._path_importer_cache p w = (Returns finder, w') ->
        dict_get p (_path_importer_cache w') = Some finder
        /\ forall cs,
             dict_get p (_path_importer_cache (after_calls cs w'))
             = Some finder
             /\ PPyPathFinder._path_importer_cache p (after_calls cs w')
                = (Returns finder, after_calls cs w'))
  /\ (forall p e',
        p <> [] ->
        dict_get p (_path_importer_cache w) = None ->
        all_decline (_path_hooks w) p (env w) = Some e' ->
        PPyPathFinder._path_importer_cache p w
        = (Returns None,
           set_path_importer_cache
             (dict_set p None (_path_importer_cache w)) (set_env e' w))).
Proof.
  split; [| split; [| split]].
  - intros d e' H. simpl. unfold lift. rewrite H. reflexivity.
  - intros e' H. simpl. unfold lift. rewrite H. simpl. split; reflexivity.
  - intros p finder w' Hp Hrun.
    destruct p as [| c p]; [contradiction |]. simpl in Hrun.
    pose proof (cached_or_hooked_stores _ _ _ _ Hrun) as Hstored.
    split; [exact Hstored |]. intros cs.
    pose proof (after_calls_keep cs w' _ _ Hstored) as Hkept.
    split; [exact Hkept |]. simpl.
    apply cached_or_hooked_hit, Hkept.
  - intros p e' Hp Hmiss Hdecl.
    destruct p as [| c p]; [contradiction |]. simpl.
    rewrite (cached_or_hooked_miss _ w Hmiss).
    unfold PPyPathFinder._path_hooks, bind, gets. simpl.
    rewrite (path_hooks_all_decline _ _ w e' Hdecl). reflexivity.
Qed.
End ResolverCacheLookup.

(** ** The exception handler *)

Section ExceptionHandler.
Context {Env : Type} {host : Host Env}.

Lemma getitem_line {A} (l : list A) (n : Z) (x : A) :
  1 <= n -> l !! Z.to_nat (n - 1) = Some x -> getitem l (n - 1) = Returns x.
Proof.
  intros Hn Hx. unfold getitem.
  pose proof (lookup_lt_Some _ _ _ Hx) as Hlt.
  destruct (n - 1 <? 0) eqn:Hneg; [apply Z.ltb_lt in Hneg; lia |].
  rewrite Hneg. simpl.
  destruct (Z.of_nat (length l) <=? n - 1) eqn:Hge;
    [apply Z.leb_le in Hge; lia |].
  rewrite Hx. reflexivity.
Qed.

Lemma handle_exc_eq module e_type e tb (w : State Env) :
  handle_exc module e_type e tb w =
    match replace_text (preprocessed_files w) e with
    | Returns e' =>
        match remove_outer_frames module tb with
        | Returns tb' =>
            (Returns tt,
             set_stderr (stderr w ++ [{| printed_type := e_type;
                                         printed_exc := e';
                                         printed_tb := tb' |}]) w)
        | Raises x => (Raises x, w)
        end
    | Raises x => (Raises x, w)
    end.
Proof.
  unfold handle_exc, bind, gets, of_outcome, print_exception, modify. simpl.
  destruct (replace_text (preprocessed_files w) e); [| reflexivity].
  destruct (remove_outer_frames module tb); reflexivity.
Qed.

(** X18: when the handler gets a syntax error whose file has an entry in
    [preprocessed_files] and whose line number names a line of that entry
    as [str.splitlines] cuts it (counting from 1), the exception it prints
    carries that line as its text; when it gets an exception that is no syntax error, or a syntax
    error whose file has no entry, the exception is printed as it came.
    (In both cases the traceback printed is the trimmed one.) *)
Theorem handle_exc_replaces_text
    (module : option ModuleType) (e_type : str) (tb tb' : Traceback)
    (w : State Env) :
  remove_outer_frames module tb = Returns tb' ->
  (forall filename n text msg data line,
     preprocessed_files w !! filename = Some data ->
     1 <= n ->
     splitlines data !! Z.to_nat (n - 1) = Some line ->
     handle_exc module e_type
       (SyntaxErrorObj (Some filename) (Some n) text msg) tb w
     = (Returns tt,
        set_stderr
          (stderr w ++
           [{| printed_type := e_type;
               printed_exc :=
                 SyntaxErrorObj (Some filename) (Some n) (Some line) msg;
               printed_tb := tb' |}]) w))
  /\ (forall e,
        untouched (preprocessed_files w) e ->
        handle_exc module e_type e tb w
        = (Returns tt,
           set_stderr
             (stderr w ++
              [{| printed_type := e_type;
                  printed_exc := e;
                  printed_tb := tb' |}]) w)).
Proof.
  intros Htb. split.
  - intros filename n text msg data line Hdata Hn Hline.
    rewrite handle_exc_eq. simpl. rewrite Hdata. simpl.
    destruct data as [| c data]; [destruct (Z.to_nat (n - 1)); discriminate |].
    simpl str_truthy. cbv iota.
    rewrite (getitem_line _ _ _ Hn Hline), Htb. reflexivity.
  - intros e He. rewrite handle_exc_eq.
    destruct e as [filename lineno text msg | cls msg]; simpl in *.
    + rewrite He, Htb. reflexivity.
    + rewrite Htb. reflexivity.
Qed.

Lemma remove_outer_frames_split (m : ModuleType) (file : option str)
    (tb : Traceback) :
  __file__ m = FileAttrIs file ->
  exists dropped kept,
    remove_outer_frames (Some m) tb = Returns kept
    /\ tb = dropped ++ kept
    /\ Forall (fun frame => ~ from_file file frame) dropped
    /\ starts_in file kept.
Proof.
  intros Hfile. induction tb as [| frame rest IH].
  - exists [], []. repeat split. constructor.
  - simpl. rewrite Hfile.
    destruct (bool_decide (Some (co_filename frame) ≠ file)) eqn:Hne.
    + apply bool_decide_eq_true in Hne.
      destruct IH as (dropped & kept & Hrun & Hsplit & Hdropped & Hkept).
      exists (frame :: dropped), kept. rewrite Hrun, Hsplit.
      repeat split; [| exact Hkept]. constructor; [exact Hne | exact Hdropped].
    + apply bool_decide_eq_false in Hne.
      exists [], (frame :: rest). repeat split; [constructor |].
      unfold starts_in, from_file.
      destruct (decide (Some (co_filename frame) = file)); tauto.
Qed.

Lemma remove_outer_frames_internal_prefix (m : ModuleType)
    (file : option str) (internal : list Frame) (first : Frame)
    (rest : Traceback) :
  __file__ m = FileAttrIs file ->
  Forall (fun frame => ~ from_file file frame) internal ->
  from_file file first ->
  remove_outer_frames (Some m) (internal ++ first :: rest)
  = Returns (first :: rest).
Proof.
  intros Hfile Hint Hfirst. induction Hint as [| frame internal Hf _ IH].
  - simpl. rewrite Hfile.
    rewrite bool_decide_eq_false_2; [reflexivity |]. intros H. apply H, Hfirst.
  - simpl. rewrite Hfile. rewrite bool_decide_eq_true_2 by exact Hf. exact IH.
Qed.

(** Outside the lines of the entry the replacement does not take place: a
    line number past the last line raises [IndexError] (and nothing is
    printed), the line number 0 reads the last line, and an entry that is the
    empty string is not looked into. *)
Example replace_text_edge_cases :
  let files : gmap str str :=
    {[ lit "f" := lit "a" ++ [10%N] ++ lit "b"; lit "g" := [] ]} in
  replace_text files (SyntaxErrorObj (Some (lit "f")) (Some 3) None [])
  = Raises IndexError
  /\ replace_text files (SyntaxErrorObj (Some (lit "f")) (Some 0) None [])
     = Returns (SyntaxErrorObj (Some (lit "f")) (Some 0) (Some (lit "b")) [])
  /\ replace_text files (SyntaxErrorObj (Some (lit "f")) None None [])
     = Raises TypeError
  /\ replace_text files (SyntaxErrorObj (Some (lit "g")) (Some 1) None [])
     = Returns (SyntaxErrorObj (Some (lit "g")) (Some 1) None []).
Proof. vm_compute. repeat split. Qed.

(** C6: with an entry module whose file is [file], the handler drops the
    frames at the front of the traceback as long as they do not come from
    [file], stops at the first frame that does (or at the end), and prints
    what is left; so when the traceback begins with internal frames followed
    by a frame of the entry module, the printed trace starts at that
    frame, and everything behind it is kept. *)
Theorem handle_exc_removes_outer_frames
    (m : ModuleType) (file : option str) (e_type : str) (e e' : ExcObj)
    (tb : Traceback) (w : State Env) :
  __file__ m = FileAttrIs file ->
  replace_text (preprocessed_files w) e = Returns e' ->
  (exists dropped kept,
     tb = dropped ++ kept
     /\ Forall (fun frame => ~ from_file file frame) dropped
     /\ starts_in file kept
     /\ handle_exc (Some m) e_type e tb w
        = (Returns tt,
           set_stderr
             (stderr w ++
              [{| printed_type := e_type;
                  printed_exc := e';
                  printed_tb := kept |}]) w))
  /\ (forall internal first rest,
        tb = internal ++ first :: rest ->
        Forall (fun frame => ~ from_file file frame) internal ->
        from_file file first ->
        handle_exc (Some m) e_type e tb w
        = (Returns tt,
           set_stderr
             (stderr w ++
              [{| printed_type := e_type;
                  printed_exc := e';
                  printed_tb := first :: rest |}]) w)).
Proof.
  intros Hfile He. split.
  - destruct (remove_outer_frames_split m file tb Hfile)
      as (dropped & kept & Hrun & Hsplit & Hdropped & Hkept).
    exists dropped, kept. repeat split; try assumption.
    rewrite handle_exc_eq, He, Hrun. reflexivity.
  - intros internal first rest -> Hint Hfirst.
    rewrite handle_exc_eq, He,
      (remove_outer_frames_internal_prefix m file _ _ _ Hfile Hint Hfirst).
    reflexivity.
Qed.
End ExceptionHandler.

(** ** Resolution with [prefer_python] *)

Section PreferPython.
Context {Env : Type} {host : Host Env}.
Variables (fullname : str) (path : SearchPath) (target : Target).

(** The handler of the [try] statement against the legacy interface as
    specified: same state, and the same result unless no loader was found,
    where the code keeps the old value of [spec] and the specification
    says "nothing". *)
Lemma legacy_handler_answer (finder : MetaFinder Env)
    (spec0 : option ModuleSpec) (w : State Env) :
  let code :=
    (loader <- call_find_module finder fullname path ;;
     match loader with
     | Some l => lift (spec_from_loader fullname l)
     | None => ret spec0
     end) w in
  let spec := legacy_answer finder fullname path w in
  snd code = snd spec
  /\ (fst code = fst spec
      \/ (fst code = Returns spec0 /\ fst spec = Returns None)).
Proof.
  unfold bind, call_find_module, legacy_answer, lift, raise, ret. simpl.
  destruct (mf_find_module finder) as [g |]; simpl; [| auto].
  destruct (g fullname path (env w)) as [[[l |] | x] e]; simpl; auto.
Qed.

Lemma query_finder_answer (finder : MetaFinder Env)
    (spec0 : option ModuleSpec) (w : State Env) :
  let code := query_finder finder spec0 fullname path target w in
  let spec := answer finder fullname path target w in
  snd code = snd spec
  /\ (fst code = fst spec
      \/ (fst code = Returns spec0 /\ fst spec = Returns None)).
Proof.
  unfold query_finder, try_except, call_find_spec, answer.
  destruct (mf_find_spec finder) as [f |].
  - unfold lift. destruct (f fullname path target (env w)) as [[s | x] e].
    + simpl. auto.
    + destruct x; simpl; auto.
      apply (legacy_handler_answer finder spec0 (set_env e w)).
  - unfold raise. simpl. apply (legacy_handler_answer finder spec0 w).
Qed.

(** The loop of [find_spec_fallback] is the specified chain: the value
    the variable [spec] carries from one resolver to the next never has a
    loader, so it never decides anything. *)
Lemma find_spec_fallback_from_first_loadable (chain : list (Finder Env))
    (spec0 : option ModuleSpec) (w : State Env) :
  has_loader spec0 = false ->
  find_spec_fallback_from chain spec0 fullname path target w
  = first_loadable (others chain) fullname path target w.
Proof.
  revert spec0 w. induction chain as [| [| finder] rest IH];
    intros spec0 w Hspec0; simpl.
  - reflexivity.
  - apply IH, Hspec0.
  - unfold bind.
    destruct (query_finder_answer finder spec0 w) as [Hstate Hresult].
    destruct (query_finder finder spec0 fullname path target w)
      as [r w1], (answer finder fullname path target w) as [r' w1'].
    simpl in *. subst w1'.
    destruct Hresult as [<- | [-> ->]].
    + destruct r as [s | x]; [| reflexivity].
      destruct (has_loader s) eqn:Hs; [reflexivity | apply IH, Hs].
    + rewrite Hspec0. simpl. apply IH, Hspec0.
Qed.

Lemma first_loadable_app (before after : list (MetaFinder Env))
    (w w1 : State Env) :
  first_loadable before fullname path target w = (Returns None, w1) ->
  first_loadable (before ++ after) fullname path target w
  = first_loadable after fullname path target w1.
Proof.
  revert w. induction before as [| finder before IH]; intros w; simpl.
  - unfold ret. intros [= <-]. reflexivity.
  - unfold bind.
    destruct (answer finder fullname path target w) as [[s | x] w'];
      [| discriminate].
    destruct (has_loader s) eqn:Hs.
    + unfold ret. intros [= -> <-]. discriminate.
    + apply IH.
Qed.

Lemma others_app (before after : list (Finder Env)) :
  others (before ++ after) = others before ++ others after.
Proof. unfold others. apply omap_app. Qed.

(** C3: with [prefer_python] set in the active configuration,
    [PPyPathFinder.find_spec] first runs the fallback chain, which is the
    chain the specification describes: the resolvers of [sys.meta_path]
    other than [PPyPathFinder] are asked in order, each through [find_spec]
    and, when that raises [AttributeError], through [find_module] with its
    loader adapted; any other exception ends the lookup and reaches the
    caller; the first spec with a loader is the result of [find_spec], with
    no resolver behind it asked and no special-extension resolution run.
    Only when the chain yields nothing does the special-extension
    resolution run. *)
Theorem find_spec_prefers_fallback (w : State Env) :
  PPyPathFinder.prefer_python (PPyPathFinder_config w) = true ->
  find_spec_fallback fullname path target w
  = first_loadable (others (sys_meta_path w)) fullname path target w
  /\ PPyPathFinder.find_spec fullname path target w
     = match first_loadable (others (sys_meta_path w))
               fullname path target w with
       | (Returns (Some spec), w') => (Returns (Some spec), w')
       | (Returns None, w') =>
           special_extension_resolution fullname path target w'
       | (Raises x, w') => (Raises x, w')
       end
  /\ (forall before finder after w1 w2 spec loader,
        sys_meta_path w = before ++ HostFinder finder :: after ->
        first_loadable (others before) fullname path target w
        = (Returns None, w1) ->
        answer finder fullname path target w1 = (Returns (Some spec), w2) ->
        spec_loader spec = Some loader ->
        PPyPathFinder.find_spec fullname path target w
        = (Returns (Some spec), w2))
  /\ (forall before finder after w1 w2 x,
        sys_meta_path w = before ++ HostFinder finder :: after ->
        first_loadable (others before) fullname path target w
        = (Returns None, w1) ->
        answer finder fullname path target w1 = (Raises x, w2) ->
        PPyPathFinder.find_spec fullname path target w = (Raises x, w2)).
Proof.
  intros Hprefer.
  assert (find_spec_fallback fullname path target w
          = first_loadable (others (sys_meta_path w)) fullname path target w)
    as Hchain.
  { unfold find_spec_fallback, bind, gets. simpl.
    apply find_spec_fallback_from_first_loadable. reflexivity. }
  assert (PPyPathFinder.find_spec fullname path target w
          = match first_loadable (others (sys_meta_path w))
                    fullname path target w with
            | (Returns (Some spec), w') => (Returns (Some spec), w')
            | (Returns None, w') =>
                special_extension_resolution fullname path target w'
            | (Raises x, w') => (Raises x, w')
            end) as Hfind.
  { unfold PPyPathFinder.find_spec.
    unfold bind at 1. unfold gets at 1. cbv beta iota.
    rewrite Hprefer. unfold bind at 1. rewrite Hchain.
    destruct (first_loadable (others (sys_meta_path w))
                fullname path target w) as [[[spec |] | x] w'];
      reflexivity. }
  split; [exact Hchain |]. split; [exact Hfind |]. split.
  - intros before finder after w1 w2 spec loader Hmeta Hbefore Hanswer Hl.
    rewrite Hfind, Hmeta, others_app. simpl.
    rewrite (first_loadable_app _ _ _ _ Hbefore). simpl.
    unfold bind. rewrite Hanswer. simpl. rewrite Hl. reflexivity.
  - intros before finder after w1 w2 x Hmeta Hbefore Hanswer.
    rewrite Hfind, Hmeta, others_app. simpl.
    rewrite (first_loadable_app _ _ _ _ Hbefore). simpl.
    unfold bind. rewrite Hanswer. reflexivity.
Qed.
End PreferPython.

(** On the demo host the chain is [PPyPathFinder], a modern resolver that
    knows nothing, a legacy-only resolver and a modern resolver that is never
    reached: the legacy loader, adapted, is the result. *)
Lemma find_spec_prefers_fallback_witness :
  fst (PPyPathFinder.find_spec (lit "os") None None Demo.preferring)
  = Returns (Some {| spec_name := lit "os";
                     spec_loader := Some (HostLoader 7);
                     spec_origin := None |})
  /\ Demo.asked
       (env (snd (PPyPathFinder.find_spec (lit "os") None None
                    Demo.preferring)))
     = [1%nat; 2%nat].
Proof.
  destruct (find_spec_prefers_fallback (lit "os") None None Demo.preferring
              eq_refl) as (_ & _ & Hfirst & _).
  rewrite (Hfirst [PPyPathFinderCls; HostFinder Demo.modern_none]
             Demo.legacy_only [HostFinder Demo.modern_all]
             (set_env (Demo.note_asked 1 Demo.demo_env) Demo.preferring)
             (set_env (Demo.note_asked 2 (Demo.note_asked 1 Demo.demo_env))
                Demo.preferring)
             {| spec_name := lit "os";
                spec_loader := Some (HostLoader 7);
                spec_origin := None |}
             (HostLoader 7) eq_refl eq_refl eq_refl eq_refl).
  split; reflexivity.
Defined.

(** C5 fails on the code.  The handler takes line [lineno] from
    [data.splitlines()], which does not cut the text where the compiler
    counts its lines.  For the transformed text ["def f():\r\n"] the compiler
    reports line 2 and [splitlines] has one line: the subscript raises
    [IndexError], the handler raises and prints nothing.  For a text whose
    first line ends in a form feed the compiler's line 2 is ["y = ("] and
    [splitlines()[1]] is the empty line, which is what gets printed. *)
Lemma handle_exc_line_not_found :
  handle_exc (Some Demo.main) (lit "IndentationError")
    (SyntaxErrorObj (Some Demo.a_ppy) (Some 2) (Some (lit "def f():"))
       (lit "expected an indented block"))
    [Demo.internal_frame 1; Demo.entry_frame 3]
    (DemoMore.holding DemoMore.unfinished)
  = (Raises IndexError, DemoMore.holding DemoMore.unfinished)
  /\ splitlines DemoMore.unfinished = [lit "def f():"]
  /\ stderr
       (snd (handle_exc (Some Demo.main) (lit "SyntaxError")
               (SyntaxErrorObj (Some Demo.a_ppy) (Some 2) (Some (lit "y = ("))
                  (lit "'(' was never closed"))
               [Demo.internal_frame 1; Demo.entry_frame 3]
               (DemoMore.holding DemoMore.form_fed)))
     = [{| printed_type := lit "SyntaxError";
           printed_exc :=
             SyntaxErrorObj (Some Demo.a_ppy) (Some 2) (Some [])
               (lit "'(' was never closed");
           printed_tb := [Demo.entry_frame 3] |}].
Proof. vm_compute. repeat split. Qed.

(** A syntax error on line 2 of the loaded [a.ppy], raised under two
    frames of the import machinery. *)
Lemma handle_exc_replaces_text_witness :
  stderr
    (snd (handle_exc (Some Demo.main) (lit "SyntaxError")
            (SyntaxErrorObj (Some Demo.a_ppy) (Some 2)
               (Some (lit "stale")) (lit "invalid syntax"))
            [Demo.internal_frame 1; Demo.entry_frame 3] Demo.loaded))
  = [{| printed_type := lit "SyntaxError";
        printed_exc :=
          SyntaxErrorObj (Some Demo.a_ppy) (Some 2)
            (Some (lit "x = 1")) (lit "invalid syntax");
        printed_tb := [Demo.entry_frame 3] |}]
  /\ stderr
       (snd (handle_exc (Some Demo.main) (lit "KeyError")
               (OtherExcObj (lit "KeyError") (lit "k"))
               [Demo.internal_frame 1; Demo.entry_frame 3] Demo.loaded))
     = [{| printed_type := lit "KeyError";
           printed_exc := OtherExcObj (lit "KeyError") (lit "k");
           printed_tb := [Demo.entry_frame 3] |}].
Proof.
  destruct (handle_exc_replaces_text (Some Demo.main) (lit "SyntaxError")
              [Demo.internal_frame 1; Demo.entry_frame 3] [Demo.entry_frame 3]
              Demo.loaded eq_refl) as [Hsyntax _].
  destruct (handle_exc_replaces_text (Some Demo.main) (lit "KeyError")
              [Demo.internal_frame 1; Demo.entry_frame 3] [Demo.entry_frame 3]
              Demo.loaded eq_refl) as [_ Hother].
  rewrite (Hsyntax Demo.a_ppy 2 (Some (lit "stale")) (lit "invalid syntax")
             (lit "pass" ++ [10%N] ++ lit "x = 1") (lit "x = 1")
             eq_refl ltac:(lia) eq_refl).
  rewrite (Hother (OtherExcObj (lit "KeyError") (lit "k")) I).
  split; reflexivity.
Defined.

(** Two internal frames, then the entry module, then an internal frame
    and the entry module again: the first two are dropped, the rest is
    printed. *)
Lemma handle_exc_removes_outer_frames_witness :
  let tb :=
    [Demo.internal_frame 1; Demo.internal_frame 2; Demo.entry_frame 3;
     Demo.internal_frame 4; Demo.entry_frame 5] in
  let e := OtherExcObj (lit "KeyError") (lit "k") in
  List.map printed_tb
    (stderr (snd (handle_exc (Some Demo.main) (lit "KeyError") e tb
                    Demo.start)))
  = [[Demo.entry_frame 3; Demo.internal_frame 4; Demo.entry_frame 5]].
Proof.
  cbv zeta.
  destruct (handle_exc_removes_outer_frames Demo.main (Some Demo.main_py)
              (lit "KeyError")
              (OtherExcObj (lit "KeyError") (lit "k"))
              (OtherExcObj (lit "KeyError") (lit "k"))
              [Demo.internal_frame 1; Demo.internal_frame 2;
               Demo.entry_frame 3; Demo.internal_frame 4; Demo.entry_frame 5]
              Demo.start eq_refl eq_refl) as [_ Hprefix].
  rewrite (Hprefix [Demo.internal_frame 1; Demo.internal_frame 2]
             (Demo.entry_frame 3)
             [Demo.internal_frame 4; Demo.entry_frame 5] eq_refl).
  - reflexivity.
  - repeat constructor; unfold from_file; simpl; discriminate.
  - reflexivity.
Defined.

(** On the demo host: with the working directory removed the empty key
    gives [None] and the cache stays empty; a path that is no directory is
    declined by the hook, [None] is stored for it and is still there, and
    returned, after more calls. *)
Lemma path_importer_cache_lookup_witness :
  let installed := after_calls [CallInstall ∅] Demo.start in
  let nowhere := lit "/nowhere" in
  let lost := set_env (Demo.remove_cwd Demo.demo_env) installed in
  let later :=
    after_calls [CallInvalidateCaches; CallPathImporterCache Demo.src_dir;
                 CallInstall ∅]
      (snd (PPyPathFinder._path_importer_cache nowhere installed)) in
  (fst (PPyPathFinder._path_importer_cache [] lost) = Returns None
   /\ _path_importer_cache (snd (PPyPathFinder._path_importer_cache [] lost))
      = [])
  /\ dict_get nowhere
       (_path_importer_cache
          (snd (PPyPathFinder._path_importer_cache nowhere installed)))
     = Some None
  /\ dict_get nowhere (_path_importer_cache later) = Some None
  /\ fst (PPyPathFinder._path_importer_cache nowhere later) = Returns None.
Proof.
  cbv zeta.
  destruct (path_importer_cache_lookup
              (set_env (Demo.remove_cwd Demo.demo_env)
                 (after_calls [CallInstall ∅] Demo.start)))
    as (_ & Hlost & _ & _).
  destruct (path_importer_cache_lookup (after_calls [CallInstall ∅] Demo.start))
    as (_ & _ & Hmemo & Hdecline).
  destruct (Hlost (Demo.remove_cwd Demo.demo_env) eq_refl) as [Hnone Hsame].
  split; [rewrite Hsame, Hnone; split; reflexivity |].
  pose proof (Hdecline (lit "/nowhere") Demo.demo_env
                ltac:(discriminate) eq_refl eq_refl) as Hrun.
  destruct (Hmemo (lit "/nowhere") None _ ltac:(discriminate) Hrun)
    as [Hstored Hlater].
  rewrite Hrun. cbn [snd]. split; [exact Hstored |].
  destruct (Hlater [CallInvalidateCaches; CallPathImporterCache Demo.src_dir;
                    CallInstall ∅]) as [Hkept Hagain].
  split; [exact Hkept |]. rewrite Hagain. reflexivity.
Defined.

(** * Further properties of the module *)

(** ** Installation, call after call *)

Section InstallationMore.
Context {Env : Type} {host : Host Env}.

Lemma set_configs_same (w : State Env) (config : Config) :
  PPyPathFinder_config w = config ->
  PPyLoader_config w = config ->
  set_PPyPathFinder_config config (set_PPyLoader_config config w) = w.
Proof. destruct w; simpl; intros -> ->; reflexivity. Qed.

(** X1: [install] is idempotent: when a call with a configuration has
    returned, calling it again with the same configuration returns and
    leaves the state exactly as it is. *)
Theorem install_idempotent (config : Config) (w w1 : State Env) :
  install config w = (Returns tt, w1) ->
  install config w1 = (Returns tt, w1).
Proof.
  intros Hrun. destruct (done w) eqn:Hd.
  - rewrite (install_when_done config w Hd) in Hrun. injection Hrun as <-.
    rewrite install_when_done by exact Hd.
    rewrite set_configs_same; reflexivity.
  - destruct (install_first_time config w w1 Hd Hrun)
      as (_ & _ & Hfc & Hlc & _ & _ & Hd1).
    rewrite (install_when_done config w1 Hd1).
    rewrite set_configs_same; [reflexivity | exact Hfc | exact Hlc].
Qed.

Lemma others_cons_self (chain : list (Finder Env)) :
  others (PPyPathFinderCls :: chain) = others chain.
Proof. reflexivity. Qed.

(** X2: the first [install] that returns rebinds [linecache.getlines] to
    the patched function, empties [sys.path_importer_cache], and leaves the
    module's own [_path_importer_cache] and [preprocessed_files] as they
    were; the resolvers the fallback chain will ask are exactly those that
    stood on [sys.meta_path] before, in their order. *)
Theorem install_first_effects (config : Config) (w w' : State Env) :
  done w = false ->
  install config w = (Returns tt, w') ->
  linecache_getlines w' = PatchedGetlines
  /\ sys_path_importer_cache w' = []
  /\ others (sys_meta_path w') = others (sys_meta_path w)
  /\ _path_importer_cache w' = _path_importer_cache w
  /\ preprocessed_files w' = preprocessed_files w.
Proof.
  intros Hd Hrun.
  destruct (install_first_time config w w' Hd Hrun)
    as (Hmeta & _ & _ & _ & Hline & Hpic & _).
  assert (preserves _path_importer_cache (install config)) as Hcache.
  { unfold install, PPyLoader.set_config, PPyPathFinder.set_config. frame. }
  pose proof (install_preserves_preprocessed_files config w) as Hfiles.
  specialize (Hcache w). rewrite Hrun in Hcache, Hfiles. simpl in *.
  rewrite Hmeta, others_cons_self. repeat split; assumption.
Qed.

Lemma install_eq_undone config (w : State Env) :
  done w = false ->
  install config w =
    let w3 :=
      set_sys_path_importer_cache []
        (set_path_hooks (_path_hooks w ++ [FileFinder_path_hook])
           (set_sys_meta_path (PPyPathFinderCls :: sys_meta_path w)
              (set_PPyPathFinder_config config
                 (set_PPyLoader_config config w)))) in
    match importlib_invalidate_caches w3 with
    | (Returns _, w4) =>
        (Returns tt, set_done true (set_linecache_getlines PatchedGetlines w4))
    | (Raises x, w4) => (Raises x, w4)
    end.
Proof.
  intros Hd. unfold install, bind, PPyLoader.set_config,
    PPyPathFinder.set_config, modify, gets. simpl. rewrite Hd. simpl.
  destruct (importlib_invalidate_caches _) as [[[] | x] w4]; reflexivity.
Qed.

(** X3: an [install] that is cut short by an exception (raised by some
    resolver's [invalidate_caches]) has already put [PPyPathFinder] on
    [sys.meta_path] and the hook on [_path_hooks], but has neither set [done]
    nor rebound [linecache.getlines]; so the next [install] that returns,
    whatever the host has become, wires a second time: [PPyPathFinder] then
    stands twice on [sys.meta_path] and the hook twice on [_path_hooks]. *)
Theorem install_interrupted_wires_twice
    (config : Config) (w w1 : State Env) (x : Exn) :
  done w = false ->
  install config w = (Raises x, w1) ->
  done w1 = false
  /\ sys_meta_path w1 = PPyPathFinderCls :: sys_meta_path w
  /\ _path_hooks w1 = _path_hooks w ++ [FileFinder_path_hook]
  /\ linecache_getlines w1 = linecache_getlines w
  /\ forall (e : Env) (config' : Config) (w2 : State Env),
       install config' (set_env e w1) = (Returns tt, w2) ->
       sys_meta_path w2
       = PPyPathFinderCls :: PPyPathFinderCls :: sys_meta_path w
       /\ count_PPyPathFinder (sys_meta_path w2)
          = S (S (count_PPyPathFinder (sys_meta_path w)))
       /\ _path_hooks w2
          = _path_hooks w ++ [FileFinder_path_hook; FileFinder_path_hook].
Proof.
  intros Hd Hrun. rewrite (install_eq_undone config w Hd) in Hrun.
  cbv zeta in Hrun.
  match type of Hrun with
  | context [importlib_invalidate_caches ?w0] =>
      set (w3 := w0) in *;
      pose proof (preserves_importlib_invalidate_caches
                    (fun w => (done w, sys_meta_path w, _path_hooks w,
                               linecache_getlines w))
                    (fun _ _ => eq_refl) w3) as Hkeep
  end.
  destruct (importlib_invalidate_caches w3) as [[[] | y] w4];
    [discriminate |].
  injection Hrun as -> ->. simpl in Hkeep.
  injection Hkeep as Hd1 Hmeta Hhooks Hline. rewrite Hd in Hd1.
  split; [exact Hd1 |]. split; [exact Hmeta |]. split; [exact Hhooks |].
  split; [exact Hline |].
  intros e2 config' w2 Hagain.
  destruct (install_first_time config' (set_env e2 w1) w2 Hd1 Hagain)
    as (Hmeta2 & Hhooks2 & _).
  simpl in Hmeta2, Hhooks2. rewrite Hmeta in Hmeta2. rewrite Hhooks in Hhooks2.
  rewrite Hmeta2, Hhooks2, <- app_assoc. repeat split.
Qed.
End InstallationMore.

(** A returning [install] on the demo host, repeated. *)
Lemma install_idempotent_witness :
  install Demo.prefer Demo.preferring = (Returns tt, Demo.preferring).
Proof.
  apply (install_idempotent Demo.prefer
           (initial_state Demo.chain [] Demo.demo_env) Demo.preferring).
  reflexivity.
Defined.

(** The first [install] on the demo host with its three resolvers. *)
Lemma install_first_effects_witness :
  linecache_getlines Demo.preferring = PatchedGetlines
  /\ sys_path_importer_cache Demo.preferring = []
  /\ others (sys_meta_path Demo.preferring)
     = others (sys_meta_path (initial_state Demo.chain [] Demo.demo_env))
  /\ _path_importer_cache Demo.preferring
     = _path_importer_cache (initial_state Demo.chain [] Demo.demo_env)
  /\ preprocessed_files Demo.preferring
     = preprocessed_files (initial_state Demo.chain [] Demo.demo_env).
Proof.
  apply (install_first_effects Demo.prefer
           (initial_state Demo.chain [] Demo.demo_env) Demo.preferring);
    reflexivity.
Defined.

(** On the demo host without a working directory the failing resolver
    cuts the first [install] short; once the directory is back the second
    [install] returns, with [PPyPathFinder] twice on the chain. *)
Lemma install_interrupted_wires_twice_witness :
  let w1 := snd (install ∅ DemoMore.fragile) in
  let w2 := snd (install ∅ (set_env Demo.demo_env w1)) in
  fst (install ∅ DemoMore.fragile) = Raises (OtherError 2)
  /\ done w1 = false
  /\ count_PPyPathFinder (sys_meta_path w2) = 2%nat
  /\ length (_path_hooks w2) = 2%nat.
Proof.
  cbv zeta.
  assert (install ∅ DemoMore.fragile
          = (Raises (OtherError 2), snd (install ∅ DemoMore.fragile)))
    as Hfirst by (vm_compute; reflexivity).
  assert (install ∅ (set_env Demo.demo_env (snd (install ∅ DemoMore.fragile)))
          = (Returns tt,
             snd (install ∅ (set_env Demo.demo_env
                               (snd (install ∅ DemoMore.fragile))))))
    as Hsecond by (vm_compute; reflexivity).
  destruct (install_interrupted_wires_twice ∅ DemoMore.fragile
              (snd (install ∅ DemoMore.fragile)) (OtherError 2)
              eq_refl Hfirst) as (Hd & _ & _ & _ & Hnext).
  destruct (Hnext Demo.demo_env ∅ _ Hsecond) as (_ & Hcount & Hhooks).
  split; [rewrite Hfirst; reflexivity |]. split; [exact Hd |].
  split; [exact Hcount |]. rewrite Hhooks. reflexivity.
Defined.

Section WiredProcess.
Context {Env : Type} {host : Host Env}.

Lemma after_call_wiring (c : Call Env) (w : State Env) :
  done w = true -> wiring (after_call c w) = wiring w.
Proof.
  intros Hd. destruct c; unfold after_call.
  - rewrite (install_when_done config w Hd). reflexivity.
  - apply (preserves_invalidate_caches wiring). intros ? ?; reflexivity.
  - apply (preserves_path_importer_cache wiring); intros ? ?; reflexivity.
  - rewrite get_data_eq.
    destruct (preprocess (path self) (PPyLoader_config w) (env w))
      as [[data | x] e]; reflexivity.
  - apply (preserves_linecache_getlines_call wiring). intros ? ?; reflexivity.
  - apply (preserves_handle_exc wiring). intros ? ?; reflexivity.
  - reflexivity.
Qed.

(** X4: once the process is wired ([done] is true), no call of the module
    and no step of the host unwires it or wires it again: [done] stays true
    and [sys.meta_path], [_path_hooks] and the binding of
    [linecache.getlines] stay what they are, whatever sequence of calls
    follows. *)
Theorem wired_process_stays_wired (cs : list (Call Env)) (w : State Env) :
  done w = true ->
  done (after_calls cs w) = true
  /\ sys_meta_path (after_calls cs w) = sys_meta_path w
  /\ _path_hooks (after_calls cs w) = _path_hooks w
  /\ linecache_getlines (after_calls cs w) = linecache_getlines w.
Proof.
  intros Hd.
  assert (wiring (after_calls cs w) = wiring w) as H.
  { revert w Hd. induction cs as [| c rest IH]; intros w Hd; [reflexivity |].
    change (after_calls (c :: rest) w) with (after_calls rest (after_call c w)).
    pose proof (after_call_wiring c w Hd) as Hc.
    rewrite IH; [exact Hc |].
    injection Hc as -> _ _ _. exact Hd. }
  injection H as -> -> -> ->. rewrite Hd. repeat split.
Qed.

Lemma call_each_app (a b : list (Ext Env unit)) (e : Env) :
  call_each (a ++ b) e =
    match call_each a e with
    | (Returns _, e') => call_each b e'
    | (Raises x, e') => (Raises x, e')
    end.
Proof.
  revert e. induction a as [| c a IH]; intros e; simpl; [reflexivity |].
  destruct (c e) as [[[] | x] e']; [apply IH | reflexivity].
Qed.

Lemma invalidate_finders_eq (finders : list (Finder Env)) (w : State Env) :
  invalidate_finders finders w =
    (fst (call_each
            (flat_map (finder_invalidations (_path_importer_cache w)) finders)
            (env w)),
     set_env
       (snd (call_each
               (flat_map (finder_invalidations (_path_importer_cache w))
                  finders)
               (env w))) w).
Proof.
  revert w. induction finders as [| finder rest IH]; intros w; simpl.
  - unfold ret. rewrite set_env_same. reflexivity.
  - rewrite call_each_app. unfold bind.
    assert (invalidate_finder finder w =
              (fst (call_each (finder_invalidations (_path_importer_cache w)
                                 finder) (env w)),
               set_env (snd (call_each
                               (finder_invalidations (_path_importer_cache w)
                                  finder) (env w))) w)) as Hone.
    { destruct finder as [| f]; simpl.
      - unfold PPyPathFinder.invalidate_caches, bind, gets. simpl.
        apply invalidate_each_eq.
      - destruct (mf_invalidate_caches f) as [inv |]; simpl.
        + unfold lift. destruct (inv (env w)) as [[[] | x] e']; reflexivity.
        + unfold ret. rewrite set_env_same. reflexivity. }
    rewrite Hone.
    destruct (call_each (finder_invalidations (_path_importer_cache w) finder)
                (env w)) as [[[] | x] e']; simpl; [| reflexivity].
    rewrite IH. reflexivity.
Qed.

(** X5: what the first [install] does to the host is to call, in this
    order, [invalidate_caches] on the resolvers memoized in
    [_path_importer_cache] that have it and then on the resolvers of the
    former [sys.meta_path] that have it, stopping at the first that raises;
    the call returns exactly when none of them raises. *)
Theorem install_invalidates_in_order (config : Config) (w : State Env) :
  done w = false ->
  let calls :=
    invalidations (_path_importer_cache w)
    ++ flat_map (finder_invalidations (_path_importer_cache w))
         (sys_meta_path w) in
  env (snd (install config w)) = snd (call_each calls (env w))
  /\ fst (install config w) = fst (call_each calls (env w)).
Proof.
  intros Hd calls. subst calls.
  rewrite (install_eq_undone config w Hd). cbv zeta.
  unfold importlib_invalidate_caches, bind, gets. cbv beta iota.
  rewrite invalidate_finders_eq. simpl.
  destruct (call_each _ (env w)) as [[[] | x] e']; simpl; split; reflexivity.
Qed.
End WiredProcess.

(** On the wired demo process: a re-install, an invalidation, a lookup, a
    load and a host step later it is wired as before. *)
Lemma wired_process_stays_wired_witness :
  let cs :=
    [CallInstall ∅; CallInvalidateCaches; CallPathImporterCache Demo.src_dir;
     CallGetData Demo.loader_a Demo.a_ppy; HostStep Demo.remove_cwd;
     CallInstall Demo.prefer] in
  done (after_calls cs Demo.preferring) = true
  /\ sys_meta_path (after_calls cs Demo.preferring)
     = sys_meta_path Demo.preferring
  /\ _path_hooks (after_calls cs Demo.preferring) = _path_hooks Demo.preferring
  /\ linecache_getlines (after_calls cs Demo.preferring)
     = linecache_getlines Demo.preferring.
Proof.
  cbv zeta.
  apply (wired_process_stays_wired
           [CallInstall ∅; CallInvalidateCaches;
            CallPathImporterCache Demo.src_dir;
            CallGetData Demo.loader_a Demo.a_ppy; HostStep Demo.remove_cwd;
            CallInstall Demo.prefer] Demo.preferring).
  reflexivity.
Defined.

(** The first [install] on a demo process that has memoized the resolver
    of [/src]: that resolver is told to invalidate. *)
Lemma install_invalidates_in_order_witness :
  let w := after_calls [CallPathImporterCache Demo.src_dir]
             (set_path_hooks [Demo.path_hook] Demo.start) in
  Demo.invalidated (env (snd (install ∅ w))) = [length Demo.src_dir]
  /\ fst (install ∅ w) = Returns tt.
Proof.
  cbv zeta.
  destruct (install_invalidates_in_order ∅
              (after_calls [CallPathImporterCache Demo.src_dir]
                 (set_path_hooks [Demo.path_hook] Demo.start)) eq_refl)
    as [Henv Hresult].
  rewrite Henv, Hresult. split; reflexivity.
Defined.

(** ** The path hooks and the resolver cache, further *)

Section ResolverCacheMore.
Context {Env : Type} {host : Host Env}.

Lemma path_hooks_from_app (before rest : list (PathHook Env)) (p : str)
    (w : State Env) (e1 : Env) :
  all_decline before p (env w) = Some e1 ->
  PPyPathFinder.path_hooks_from (before ++ rest) p w
  = PPyPathFinder.path_hooks_from rest p (set_env e1 w).
Proof.
  revert w. induction before as [| hook before IH]; intros w; simpl.
  - intros [= <-]. rewrite set_env_same. reflexivity.
  - unfold try_except, lift.
    destruct (hook p (env w)) as [[f | x] e]; [discriminate |].
    destruct x; try discriminate. simpl. intros H.
    rewrite (IH (set_env e w)) by exact H. reflexivity.
Qed.

(** X6: [PPyPathFinder._path_hooks(path)] asks the registered hooks in
    order; the first one that does not raise [ImportError] decides: what it
    returns is returned and an exception of another class it raises reaches
    the caller, in both cases without any later hook being asked.  When
    every hook raises [ImportError] (also when none is registered) the
    result is [None]. *)
Theorem path_hooks_first_decides
    (before after : list (PathHook Env)) (hook : PathHook Env) (p : str)
    (w : State Env) (e1 e2 : Env) :
  _path_hooks w = before ++ hook :: after ->
  all_decline before p (env w) = Some e1 ->
  (forall finder,
     hook p e1 = (Returns finder, e2) ->
     PPyPathFinder._path_hooks p w = (Returns finder, set_env e2 w))
  /\ (forall x,
        hook p e1 = (Raises x, e2) -> x <> ImportError ->
        PPyPathFinder._path_hooks p w = (Raises x, set_env e2 w))
  /\ (hook p e1 = (Raises ImportError, e2) ->
      forall e3, all_decline after p e2 = Some e3 ->
      PPyPathFinder._path_hooks p w = (Returns None, set_env e3 w)).
Proof.
  intros Hhooks Hbefore.
  assert (PPyPathFinder._path_hooks p w
          = PPyPathFinder.path_hooks_from (hook :: after) p (set_env e1 w))
    as Hrun.
  { unfold PPyPathFinder._path_hooks, bind, gets. cbv beta iota.
    rewrite Hhooks. apply path_hooks_from_app, Hbefore. }
  rewrite Hrun.
  change (PPyPathFinder.path_hooks_from (hook :: after) p (set_env e1 w))
    with (try_except (lift (hook p)) is_ImportError
            (PPyPathFinder.path_hooks_from after p) (set_env e1 w)).
  unfold try_except, lift. change (env (set_env e1 w)) with e1.
  split; [| split].
  - intros finder ->. reflexivity.
  - intros x -> Hx. destruct x; try reflexivity. contradiction.
  - intros -> e3 Hafter. change (is_ImportError ImportError) with true.
    cbv iota.
    rewrite (path_hooks_all_decline after p (set_env e2 (set_env e1 w)) e3
               Hafter).
    reflexivity.
Qed.

Lemma dict_set_absent {V} (q : str) (v : V) (d : dict str V) :
  dict_get q d = None -> dict_set q v d = d ++ [(q, v)].
Proof.
  induction d as [| [k v'] rest IH]; simpl; [reflexivity |].
  destruct (decide (q = k)); [discriminate |].
  intros H. rewrite IH by exact H. reflexivity.
Qed.

Lemma cached_or_hooked_shape (q : str) (w : State Env) :
  match PPyPathFinder.cached_or_hooked q w with
  | (Returns finder, w') =>
      (dict_get q (_path_importer_cache w) = Some finder
       /\ _path_importer_cache w' = _path_importer_cache w)
      \/ (dict_get q (_path_importer_cache w) = None
          /\ _path_importer_cache w' = _path_importer_cache w ++ [(q, finder)])
  | (Raises _, w') => _path_importer_cache w' = _path_importer_cache w
  end.
Proof.
  destruct (dict_get q (_path_importer_cache w)) as [f |] eqn:Hget.
  - rewrite (cached_or_hooked_hit q f w Hget). left. split; reflexivity.
  - rewrite (cached_or_hooked_miss q w Hget).
    pose proof (preserves_path_hooks _path_importer_cache q
                  (fun _ _ => eq_refl) w) as Hc.
    destruct (PPyPathFinder._path_hooks q w) as [[f | x] w1]; simpl in *.
    + right. split; [reflexivity |]. apply dict_set_absent, Hget.
    + exact Hc.
Qed.

Lemma cached_or_hooked_memoizes (q : str) (w : State Env) :
  memoizes q w (PPyPathFinder.cached_or_hooked q w).
Proof.
  unfold memoizes. pose proof (cached_or_hooked_shape q w) as H.
  destruct (dict_get q (_path_importer_cache w)) as [f |] eqn:Hget.
  - rewrite (cached_or_hooked_hit q f w Hget). split; reflexivity.
  - destruct (PPyPathFinder.cached_or_hooked q w) as [[f | y] w'];
      simpl in *; [| exact H].
    destruct H as [[H _] | [_ H]]; [discriminate | exact H].
Qed.

(** X7: what a lookup does to [_path_importer_cache].  For a path that is
    not empty the directory is the path; for the empty path it is the
    working directory [getcwd] returns at that moment.  If the directory has
    an entry, the entry is returned and the cache stays as it is; if it has
    none and the lookup returns, exactly one entry, the directory with the
    result, is added at the end; if it has none and the lookup raises, the
    cache stays as it is.  When [getcwd] itself raises, the cache stays as
    it is, and the result is [None] for [FileNotFoundError] and the
    exception otherwise. *)
Theorem path_importer_cache_adds_one (p : str) (w : State Env) :
  (p <> [] -> memoizes p w (PPyPathFinder._path_importer_cache p w))
  /\ (p = [] ->
      match getcwd (env w) with
      | (Returns cwd, _) =>
          memoizes cwd w (PPyPathFinder._path_importer_cache p w)
      | (Raises x, _) =>
          _path_importer_cache (snd (PPyPathFinder._path_importer_cache p w))
          = _path_importer_cache w
          /\ fst (PPyPathFinder._path_importer_cache p w)
             = if is_FileNotFoundError x then Returns None else Raises x
      end).
Proof.
  split.
  - intros Hp. destruct p as [| c p]; [contradiction |].
    apply cached_or_hooked_memoizes.
  - intros ->. simpl. unfold lift.
    destruct (getcwd (env w)) as [[d | x] e].
    + apply (cached_or_hooked_memoizes d (set_env e w)).
    + destruct (is_FileNotFoundError x); split; reflexivity.
Qed.

(** X9: a directory looked up while no hook is registered (before
    [install]) is memoized as having no resolver, and stays so: after
    [install] has registered the hook, and after any other calls, the lookup
    of that directory still returns [None] without asking the hook. *)
Theorem lookup_before_install_sticks (p : str) (w : State Env)
    (cs : list (Call Env)) :
  p <> [] ->
  _path_hooks w = [] ->
  dict_get p (_path_importer_cache w) = None ->
  let w1 := snd (PPyPathFinder._path_importer_cache p w) in
  fst (PPyPathFinder._path_importer_cache p w) = Returns None
  /\ PPyPathFinder._path_importer_cache p (after_calls cs w1)
     = (Returns None, after_calls cs w1).
Proof.
  intros Hp Hhooks Hmiss. cbv zeta.
  destruct p as [| c p]; [contradiction |]. simpl.
  assert (PPyPathFinder.cached_or_hooked (c :: p) w
          = (Returns None,
             set_path_importer_cache
               (dict_set (c :: p) None (_path_importer_cache w)) w)) as Hrun.
  { rewrite (cached_or_hooked_miss _ w Hmiss).
    unfold PPyPathFinder._path_hooks, bind, gets. simpl. rewrite Hhooks.
    reflexivity. }
  pose proof (cached_or_hooked_stores _ _ _ _ Hrun) as Hstored.
  rewrite Hrun. simpl. split; [reflexivity |].
  apply cached_or_hooked_hit, after_calls_keep, Hstored.
Qed.
End ResolverCacheMore.

(** Three hooks on the demo host, the second one broken: for a path that
    is no directory the first declines and the failure of the second reaches
    the caller. *)
Lemma path_hooks_first_decides_witness :
  PPyPathFinder._path_hooks (lit "/nowhere")
    (set_path_hooks [Demo.path_hook; DemoMore.broken_hook; Demo.path_hook]
       Demo.start)
  = (Raises (OtherError 3),
     set_env Demo.demo_env
       (set_path_hooks [Demo.path_hook; DemoMore.broken_hook; Demo.path_hook]
          Demo.start)).
Proof.
  destruct (path_hooks_first_decides
              [Demo.path_hook] [Demo.path_hook] DemoMore.broken_hook
              (lit "/nowhere")
              (set_path_hooks
                 [Demo.path_hook; DemoMore.broken_hook; Demo.path_hook]
                 Demo.start)
              Demo.demo_env Demo.demo_env eq_refl eq_refl)
    as (_ & Hraise & _).
  apply (Hraise (OtherError 3) eq_refl). discriminate.
Defined.

(** [/src] is looked up on the demo host before [install]: after
    [install] its lookup still finds no resolver, though the hook accepts
    the directory. *)
Lemma lookup_before_install_sticks_witness :
  let w1 := snd (PPyPathFinder._path_importer_cache Demo.src_dir Demo.start) in
  fst (PPyPathFinder._path_importer_cache Demo.src_dir Demo.start)
  = Returns None
  /\ PPyPathFinder._path_importer_cache Demo.src_dir
       (after_calls [CallInstall ∅] w1)
     = (Returns None, after_calls [CallInstall ∅] w1).
Proof.
  cbv zeta.
  apply (lookup_before_install_sticks Demo.src_dir Demo.start [CallInstall ∅]).
  - discriminate.
  - reflexivity.
  - reflexivity.
Defined.

(** ** The transform cache and the loader, further *)

Section TransformCacheMore.
Context {Env : Type} {host : Host Env}.

Lemma patched_getlines_eq (filename : str) (module_globals : ModuleGlobals)
    (w : State Env) :
  patched_getlines filename module_globals w =
    match preprocessed_files w !! filename with
    | Some text => (Returns (splitlines text), w)
    | None => lift (getlines filename module_globals) w
    end.
Proof.
  unfold patched_getlines, bind, gets. simpl.
  destruct (preprocessed_files w !! filename); reflexivity.
Qed.

(** X10: once [linecache.getlines] is patched, a load that stored a text
    makes it the source of the file for every reader of lines: asking
    [linecache.getlines] for the loader's file name returns the lines of the
    stored text, and the host (the file on disk) is not consulted. *)
Theorem loaded_text_is_what_getlines_returns
    (self : PPyLoader) (filename name : str) (module_globals : ModuleGlobals)
    (w : State Env) (data : str) (e : Env) :
  linecache_getlines w = PatchedGetlines ->
  preprocess (path self) (PPyLoader_config w) (env w) = (Returns data, e) ->
  let w1 := snd (PPyLoader.get_data self filename w) in
  linecache_getlines_call (PPyLoader.get_filename self name) module_globals w1
  = (Returns (splitlines data), w1).
Proof.
  intros Hpatched Hpre. cbv zeta. rewrite get_data_eq, Hpre. simpl.
  unfold linecache_getlines_call, bind, gets. simpl. rewrite Hpatched.
  rewrite patched_getlines_eq. simpl.
  unfold PPyLoader.get_filename. rewrite lookup_insert_eq. reflexivity.
Qed.

(** X11: an entry of [preprocessed_files] is never removed, and only a
    load of that very path changes it: every other call, and every step of
    the host, leaves the entry of the path as it is. *)
Theorem transform_cache_entry_changes_only_by_load
    (c : Call Env) (cs : list (Call Env)) (w : State Env) (p : str) :
  (loads p c = false ->
   preprocessed_files (after_call c w) !! p = preprocessed_files w !! p)
  /\ (is_Some (preprocessed_files w !! p) ->
      is_Some (preprocessed_files (after_calls cs w) !! p)).
Proof.
  split.
  - intros Hc. rewrite after_call_preprocessed_files.
    destruct c; try reflexivity. simpl in Hc.
    apply bool_decide_eq_false in Hc.
    destruct (fst (preprocess (path self) (PPyLoader_config w) (env w)));
      [apply lookup_insert_ne; exact Hc | reflexivity].
  - intros H. apply transform_cache_entries_from. left. exact H.
Qed.

Lemma encode_codepoint_encodable (c : N) :
  is_Some (encode_codepoint c) <-> encodable c = true.
Proof.
  unfold encode_codepoint, encodable.
  destruct (N.ltb_spec c 128), (N.ltb_spec c 2048), (N.leb_spec 55296 c),
    (N.leb_spec c 57343), (N.ltb_spec c 65536), (N.ltb_spec c 1114112),
    (N.ltb_spec c 55296), (N.ltb_spec 57343 c); simpl;
    try lia; split; intros Hx; try discriminate Hx; eauto;
    destruct Hx as [? Hx]; discriminate Hx.
Qed.

Lemma encode_utf8_encodable (s : str) :
  is_Some (encode_utf8 s) <-> forallb encodable s = true.
Proof.
  induction s as [| c s IH]; simpl; [split; eauto |].
  rewrite andb_true_iff, <- IH, <- encode_codepoint_encodable.
  destruct (encode_codepoint c), (encode_utf8 s); split;
    try (intros [x H]; discriminate); try (intros [[x H] [y H']]; discriminate);
    eauto.
Qed.

(** X12: when the preprocessor returns a text, [get_data] stores it under
    the loader's path whether or not it can then be encoded; the call
    returns bytes exactly when every code point of the text is a Unicode
    scalar value, and raises [UnicodeEncodeError] otherwise (a lone
    surrogate), with the entry already stored. *)
Theorem get_data_stores_before_encoding
    (self : PPyLoader) (filename : str) (w : State Env) (data : str) (e : Env) :
  preprocess (path self) (PPyLoader_config w) (env w) = (Returns data, e) ->
  preprocessed_files (snd (PPyLoader.get_data self filename w)) !! path self
  = Some data
  /\ ((exists b, fst (PPyLoader.get_data self filename w) = Returns b)
      <-> forallb encodable data = true)
  /\ (forallb encodable data = false ->
      fst (PPyLoader.get_data self filename w) = Raises UnicodeEncodeError).
Proof.
  intros Hpre. rewrite get_data_eq, Hpre. simpl.
  split; [apply lookup_insert_eq |].
  pose proof (encode_utf8_encodable data) as Henc. unfold encode.
  destruct (encode_utf8 data) as [b |].
  - split; [| intros H; destruct Henc as [Henc _]; rewrite Henc in H;
               [discriminate | eauto]].
    split; [intros _; apply Henc; eauto | eauto].
  - split; [| reflexivity].
    split; [intros [b H]; discriminate |].
    intros H. apply Henc in H as [b H]. discriminate.
Qed.
End TransformCacheMore.

(** Loading [a.ppy] on the wired demo process and asking for its lines. *)
Lemma loaded_text_is_what_getlines_returns_witness :
  fst (linecache_getlines_call
         (PPyLoader.get_filename Demo.loader_a (lit "a")) None
         (snd (PPyLoader.get_data Demo.loader_a Demo.a_ppy Demo.preferring)))
  = Returns [lit "pass"; lit "x = 1"].
Proof.
  assert (preprocess (path Demo.loader_a) (PPyLoader_config Demo.preferring)
            (env Demo.preferring)
          = (Returns (lit "pass" ++ [10%N] ++ lit "x = 1"), Demo.demo_env))
    as Hpre by (vm_compute; reflexivity).
  rewrite (loaded_text_is_what_getlines_returns Demo.loader_a Demo.a_ppy
             (lit "a") None Demo.preferring
             (lit "pass" ++ [10%N] ++ lit "x = 1") Demo.demo_env
             eq_refl Hpre).
  reflexivity.
Defined.

(** [c.ppy] holds a lone surrogate, which the demo preprocessor lets
    through: the load raises, and the text is in the cache. *)
Lemma get_data_stores_before_encoding_witness :
  let w := set_env (DemoMore.with_surrogate Demo.demo_env) Demo.start in
  fst (PPyLoader.get_data DemoMore.loader_c DemoMore.c_ppy w)
  = Raises UnicodeEncodeError
  /\ preprocessed_files
       (snd (PPyLoader.get_data DemoMore.loader_c DemoMore.c_ppy w))
       !! DemoMore.c_ppy
     = Some (lit "pass" ++ [10%N; 55296%N]).
Proof.
  cbv zeta.
  assert (preprocess (path DemoMore.loader_c)
            (PPyLoader_config
               (set_env (DemoMore.with_surrogate Demo.demo_env) Demo.start))
            (env (set_env (DemoMore.with_surrogate Demo.demo_env) Demo.start))
          = (Returns (lit "pass" ++ [10%N; 55296%N]),
             DemoMore.with_surrogate Demo.demo_env))
    as Hpre by (vm_compute; reflexivity).
  destruct (get_data_stores_before_encoding DemoMore.loader_c DemoMore.c_ppy
              (set_env (DemoMore.with_surrogate Demo.demo_env) Demo.start)
              (lit "pass" ++ [10%N; 55296%N])
              (DemoMore.with_surrogate Demo.demo_env) Hpre)
    as (Hstored & _ & Hraises).
  split; [apply Hraises; reflexivity | exact Hstored].
Defined.

(** ** The exception handler, further *)

Section ExceptionHandlerMore.
Context {Env : Type} {host : Host Env}.





(** X14: the trimming at its edges.  Without an entry module nothing is
    dropped.  With an entry module none of whose frames is in the traceback,
    every frame is dropped and the printed trace is empty.  With an entry
    module that has no [__file__], trimming a traceback that is not empty
    raises [AttributeError].  And trimming what has been trimmed changes
    nothing. *)
Theorem remove_outer_frames_edges (m : ModuleType) (tb : Traceback) :
  remove_outer_frames None tb = Returns tb
  /\ (forall file,
        __file__ m = FileAttrIs file ->
        Forall (fun frame => ~ from_file file frame) tb ->
        remove_outer_frames (Some m) tb = Returns [])
  /\ (__file__ m = NoFileAttr -> tb <> [] ->
      remove_outer_frames (Some m) tb = Raises AttributeError)
  /\ (forall kept,
        remove_outer_frames (Some m) tb = Returns kept ->
        remove_outer_frames (Some m) kept = Returns kept).
Proof.
  split; [destruct tb; reflexivity |]. split; [| split].
  - intros file Hfile Hall. induction Hall as [| frame rest Hf _ IH];
      [reflexivity |].
    simpl. rewrite Hfile, bool_decide_eq_true_2 by exact Hf. exact IH.
  - intros Hfile Htb. destruct tb as [| frame rest]; [contradiction |].
    simpl. rewrite Hfile. reflexivity.
  - induction tb as [| frame rest IH]; intros kept; simpl.
    + intros [= <-]. reflexivity.
    + destruct (__file__ m) as [| file] eqn:Hfile; [discriminate |].
      destruct (bool_decide (Some (co_filename frame) ≠ file)) eqn:Hne.
      * apply IH.
      * intros [= <-]. simpl. rewrite Hfile, Hne. reflexivity.
Qed.
End ExceptionHandlerMore.

(** ** Resolution, further *)

Section ResolutionMore.
Context {Env : Type} {host : Host Env}.
Variables (fullname : str) (path : SearchPath) (target : Target).

Lemma first_loadable_returns_loadable (finders : list (MetaFinder Env))
    (w w' : State Env) (spec : ModuleSpec) :
  first_loadable finders fullname path target w = (Returns (Some spec), w') ->
  has_loader (Some spec) = true.
Proof.
  revert w. induction finders as [| finder rest IH]; intros w; simpl.
  - discriminate.
  - unfold bind.
    destruct (answer finder fullname path target w) as [[s | x] w1];
      [| discriminate].
    destruct (has_loader s) eqn:Hs; [| apply IH].
    unfold ret. intros [= -> _]. exact Hs.
Qed.

Lemma find_spec_eq (w : State Env) :
  PPyPathFinder.find_spec fullname path target w =
    if PPyPathFinder.prefer_python (PPyPathFinder_config w) then
      match find_spec_fallback fullname path target w with
      | (Returns (Some spec), w') => (Returns (Some spec), w')
      | (Returns None, w') =>
          special_extension_resolution fullname path target w'
      | (Raises x, w') => (Raises x, w')
      end
    else special_extension_resolution fullname path target w.
Proof.
  unfold PPyPathFinder.find_spec.
  unfold bind at 1. unfold gets at 1. cbv beta iota.
  destruct (PPyPathFinder.prefer_python (PPyPathFinder_config w)).
  - unfold bind at 1.
    destruct (find_spec_fallback fullname path target w)
      as [[[spec |] | x] w']; reflexivity.
  - reflexivity.
Qed.

(** X15: whatever the configuration, [PPyPathFinder.find_spec] never
    returns a spec without a loader: its result is [None] or a spec whose
    loader is set (a namespace spec of the standard path search, which has
    none, becomes [None]). *)
Theorem find_spec_returns_loadable (w w' : State Env) (spec : ModuleSpec) :
  PPyPathFinder.find_spec fullname path target w = (Returns (Some spec), w') ->
  is_Some (spec_loader spec).
Proof.
  assert (forall s : ModuleSpec,
            has_loader (Some s) = true -> is_Some (spec_loader s)) as Hl.
  { intros s. simpl. destruct (spec_loader s); [eauto | discriminate]. }
  assert (forall w0 : State Env,
            special_extension_resolution fullname path target w0
            = (Returns (Some spec), w') -> is_Some (spec_loader spec)) as Hsp.
  { intros w0. unfold special_extension_resolution, bind.
    destruct (PathFinder_find_spec fullname path target w0) as [[s | x] w1];
      [| discriminate].
    destruct (has_loader s) eqn:Hs; unfold ret; [| discriminate].
    intros [= -> _]. apply Hl, Hs. }
  rewrite find_spec_eq.
  destruct (PPyPathFinder.prefer_python (PPyPathFinder_config w));
    [| apply Hsp].
  unfold find_spec_fallback, bind, gets. cbv beta iota.
  rewrite (find_spec_fallback_from_first_loadable fullname path target
             (sys_meta_path w) None w eq_refl).
  destruct (first_loadable (others (sys_meta_path w)) fullname path target w)
    as [[[s |] | x] w1] eqn:Hchain; [| apply Hsp | discriminate].
  intros [= -> _].
  apply Hl, (first_loadable_returns_loadable _ _ _ _ Hchain).
Qed.

(** X16: a resolver that has neither [find_spec] nor [find_module] is not
    skipped by [find_spec_fallback]: when the resolvers before it have given
    nothing, the [AttributeError] of the missing legacy method reaches the
    caller, and the resolvers behind it are not asked. *)
Theorem find_spec_fallback_bare_resolver
    (before after : list (Finder Env)) (finder : MetaFinder Env)
    (w w1 : State Env) :
  sys_meta_path w = before ++ HostFinder finder :: after ->
  find_spec_fallback_from before None fullname path target w
  = (Returns None, w1) ->
  mf_find_spec finder = None ->
  mf_find_module finder = None ->
  find_spec_fallback fullname path target w = (Raises AttributeError, w1).
Proof.
  intros Hmeta Hbefore Hspec Hmodule.
  rewrite (find_spec_fallback_from_first_loadable fullname path target
             before None w eq_refl) in Hbefore.
  unfold find_spec_fallback, bind, gets. cbv beta iota.
  rewrite (find_spec_fallback_from_first_loadable fullname path target
             (sys_meta_path w) None w eq_refl).
  rewrite Hmeta, others_app.
  rewrite (first_loadable_app fullname path target _ _ _ _ Hbefore).
  simpl. unfold bind, answer, legacy_answer. rewrite Hspec, Hmodule.
  reflexivity.
Qed.
End ResolutionMore.

(** ** The lines of a cached text *)

Section LinesMore.
Context {Env : Type} {host : Host Env}.

Lemma splitlines_from_unbroken (n : nat) :
  forall (s cur : str),
    (length s <= n)%nat -> unbroken cur ->
    Forall unbroken (splitlines_from cur s).
Proof.
  assert (forall cur : str, unbroken cur -> unbroken (rev cur)) as Hrev.
  { intros cur H. unfold unbroken in *. apply Forall_rev, H. }
  induction n as [| n IH]; intros s cur Hlen Hcur.
  - destruct s; [| simpl in Hlen; lia].
    simpl. destruct cur; repeat constructor. apply Hrev, Hcur.
  - destruct s as [| c rest]; simpl.
    + destruct cur; repeat constructor. apply Hrev, Hcur.
    + simpl in Hlen.
      assert (Forall unbroken (rev cur :: splitlines_from [] rest)) as Hnext.
      { constructor; [apply Hrev, Hcur |].
        apply IH; [lia | constructor]. }
      destruct (c =? 13)%N.
      * destruct rest as [| c' rest']; [exact Hnext |].
        destruct (c' =? 10)%N; [| exact Hnext].
        constructor; [apply Hrev, Hcur |].
        apply IH; [simpl in Hlen; lia | constructor].
      * destruct (is_linebreak c) eqn:Hc; [exact Hnext |].
        apply IH; [lia |]. constructor; [exact Hc | exact Hcur].
Qed.

Lemma splitlines_from_whole (s cur : str) :
  unbroken s ->
  splitlines_from cur s
  = match rev cur ++ s with [] => [] | _ :: _ => [rev cur ++ s] end.
Proof.
  revert cur. induction s as [| c rest IH]; intros cur Hs; simpl.
  - rewrite app_nil_r. destruct cur as [| x cur]; [reflexivity |].
    simpl. destruct (rev cur ++ [x]) eqn:H; [| reflexivity].
    destruct (rev cur); discriminate.
  - inversion Hs as [| ? ? Hc Hrest]; subst.
    assert ((c =? 13)%N = false) as H13.
    { unfold is_linebreak in Hc. destruct (c =? 13)%N; [| reflexivity].
      rewrite !orb_true_r in Hc. simpl in Hc.
      destruct (c =? 10)%N, (c =? 11)%N, (c =? 12)%N; discriminate. }
    rewrite H13, Hc, (IH (c :: cur) Hrest). simpl.
    rewrite <- app_assoc. reflexivity.
Qed.

(** X17: for a file with a cached text [patched_getlines] returns, without
    touching the state, lines none of which holds a line boundary (one of the
    characters [str.splitlines] breaks at); a cached text that is not empty
    and has no line boundary comes back as that one line, and an empty
    cached text as no line at all. *)
Theorem patched_getlines_lines
    (filename : str) (module_globals : ModuleGlobals) (w : State Env)
    (text : str) :
  preprocessed_files w !! filename = Some text ->
  exists lines,
    patched_getlines filename module_globals w = (Returns lines, w)
    /\ Forall unbroken lines
    /\ (unbroken text -> text <> [] -> lines = [text])
    /\ (text = [] -> lines = []).
Proof.
  intros Htext. exists (splitlines text).
  rewrite patched_getlines_eq, Htext. split; [reflexivity |].
  split; [apply (splitlines_from_unbroken (length text)); [lia | constructor] |].
  split.
  - intros Hu Hne. unfold splitlines. rewrite (splitlines_from_whole _ _ Hu).
    simpl. destruct text; [contradiction | reflexivity].
  - intros ->. reflexivity.
Qed.
End LinesMore.

(** The spec [find_spec] returns on the demo host has its loader. *)
Lemma find_spec_returns_loadable_witness :
  match fst (PPyPathFinder.find_spec (lit "os") None None Demo.preferring) with
  | Returns (Some spec) => is_Some (spec_loader spec)
  | _ => False
  end.
Proof.
  assert (PPyPathFinder.find_spec (lit "os") None None Demo.preferring
          = (Returns (Some {| spec_name := lit "os";
                              spec_loader := Some (HostLoader 7);
                              spec_origin := None |}),
             snd (PPyPathFinder.find_spec (lit "os") None None
                    Demo.preferring)))
    as Hrun by (vm_compute; reflexivity).
  pose proof (find_spec_returns_loadable (lit "os") None None Demo.preferring
                _ _ Hrun) as Hloader.
  rewrite Hrun. exact Hloader.
Defined.

(** A chain whose second resolver has no interface at all: the first is
    asked, the lookup raises, the third is never asked. *)
Lemma find_spec_fallback_bare_resolver_witness :
  let w :=
    initial_state
      [HostFinder Demo.modern_none; HostFinder DemoMore.bare;
       HostFinder Demo.modern_all] [] Demo.demo_env in
  fst (find_spec_fallback (lit "os") None None w) = Raises AttributeError
  /\ Demo.asked (env (snd (find_spec_fallback (lit "os") None None w)))
     = [1%nat].
Proof.
  cbv zeta.
  rewrite (find_spec_fallback_bare_resolver (lit "os") None None
             [HostFinder Demo.modern_none] [HostFinder Demo.modern_all]
             DemoMore.bare
             (initial_state
                [HostFinder Demo.modern_none; HostFinder DemoMore.bare;
                 HostFinder Demo.modern_all] [] Demo.demo_env)
             (set_env (Demo.note_asked 1 Demo.demo_env)
                (initial_state
                   [HostFinder Demo.modern_none; HostFinder DemoMore.bare;
                    HostFinder Demo.modern_all] [] Demo.demo_env))
             eq_refl eq_refl eq_refl eq_refl).
  split; reflexivity.
Defined.

(** The lines of the loaded [a.ppy]. *)
Lemma patched_getlines_lines_witness :
  exists lines,
    patched_getlines Demo.a_ppy None Demo.loaded = (Returns lines, Demo.loaded)
    /\ Forall unbroken lines
    /\ (unbroken (lit "pass" ++ [10%N] ++ lit "x = 1") ->
        lit "pass" ++ [10%N] ++ lit "x = 1" <> [] ->
        lines = [lit "pass" ++ [10%N] ++ lit "x = 1"])
    /\ (lit "pass" ++ [10%N] ++ lit "x = 1" = [] -> lines = []).
Proof.
  apply (patched_getlines_lines Demo.a_ppy None Demo.loaded
           (lit "pass" ++ [10%N] ++ lit "x = 1")).
  reflexivity.
Defined.
